(** * Scoring engine of the strategic donation platform (prototype3)

    A shallow embedding of the scoring code of [scraper.py] and of the
    tables of [database_schema.py] it reads and writes, with the
    properties of the leverage score, of the impact scores, of the issue
    positions and of the ingestion run.

    Numbers.  The Python code computes on [int] and [float] values; here
    both are exact rationals ([Q]), so [0.6] is the rational 6/10 and
    [round(x, 2)] is rounding to the nearest hundredth, ties to even.
    SQL NULL and Python [None] are [None] of an [option].

    Strings.  A string is a sequence of one-byte characters, and
    [upper()] changes the ASCII letters only.

    Store.  The database is an explicit value passed through the
    operations; a table is the list of its rows with their rowids.

    Effects.  Code that can raise runs in [Py.run], which records every
    division (with its denominator) and every call of
    [calculate_leverage_score] and stops at a raised exception; code whose
    exceptions are all caught runs in [Py.logged], which records the same
    and always has a value. *)

From Stdlib Require Import QArith Qabs Qround ZArith Lia Lqa List String Ascii Bool.
Import ListNotations.

Set Implicit Arguments.

(* ================================================================= *)
(** ** Python numbers *)

Module PyNum.

Local Open Scope Q_scope.

Abbreviation num := Q.

(** [x < y], [x <= y], [x > y], [x >= y] on numbers. *)
Definition leb (x y : num) : bool := Qle_bool x y.
Definition ltb (x y : num) : bool := negb (Qle_bool y x).
Definition gtb (x y : num) : bool := ltb y x.
Definition geb (x y : num) : bool := leb y x.

(** Truth value of a number: zero is falsy. *)
Definition truthy (x : num) : bool := negb (Qeq_bool x 0).

(** [v or d] for a nullable number [v]: [None] and zero are both falsy. *)
Definition or_default (v : option num) (d : num) : num :=
  match v with
  | Some x => if truthy x then x else d
  | None => d
  end.

(** [max(a, b)] and [min(a, b)] of the builtins: the first argument is
    kept unless the second is strictly better. *)
Definition max (a b : num) : num := if gtb b a then b else a.
Definition min (a b : num) : num := if ltb b a then b else a.

(** Nearest integer, ties to the even one. *)
Definition round_half_even (x : num) : Z :=
  let f := Qfloor x in
  let r := x - inject_Z f in
  if ltb r (1 # 2) then f
  else if ltb (1 # 2) r then (f + 1)%Z
  else if Z.even f then f else (f + 1)%Z.

(** [round(x, 2)]. *)
Definition round2 (x : num) : num :=
  inject_Z (round_half_even (x * 100)) / 100.

End PyNum.

(* ================================================================= *)
(** ** Effects: division, raised exceptions, recorded calls *)

Module Py.

(** The exceptions of the code: of a division by zero, and of unpacking
    a list of the wrong length. *)
Inductive exn : Type :=
| ZeroDivisionError
| ValueError.

(** What a run records: each division with its denominator, and each call
    of a function whose calls are to be counted. *)
Inductive event : Type :=
| Divide (denominator : Q)
| Call (fn : string).

Inductive outcome (A : Type) : Type :=
| Return (a : A)
| Raise (e : exn).

Arguments Return {A} a.
Arguments Raise {A} e.

Record run (A : Type) : Type := Run {
  trace : list event;
  result : outcome A
}.

Definition ret {A : Type} (a : A) : run A :=
  {| trace := []; result := Return a |}.

Definition bind {A B : Type} (m : run A) (k : A -> run B) : run B :=
  match result m with
  | Return a => {| trace := trace m ++ trace (k a); result := result (k a) |}
  | Raise e => {| trace := trace m; result := Raise e |}
  end.

Definition called (fn : string) : run unit :=
  {| trace := [Call fn]; result := Return tt |}.

(** [x / y] on numbers: true division, [ZeroDivisionError] on a zero
    denominator. *)
Definition truediv (x y : Q) : run Q :=
  {| trace := [Divide y];
     result := if Qeq_bool y 0 then Raise ZeroDivisionError else Return (x / y)%Q |}.

Definition raise {A : Type} (e : exn) : run A :=
  {| trace := []; result := Raise e |}.

(** A computation that cannot raise: what it records, and its value. *)
Definition logged (A : Type) : Type := (list event * A)%type.

Definition logged_ret {A : Type} (a : A) : logged A := ([], a).

Definition logged_bind {A B : Type} (m : logged A) (k : A -> logged B)
    : logged B :=
  (fst m ++ fst (k (snd m)), snd (k (snd m))).

(** [try: body / except Exception: (print)] around a body that computes
    the next value of a state: if the body raises, the state stays. *)
Definition try_except {S : Type} (body : run S) (s : S) : logged S :=
  match result body with
  | Return s' => (trace body, s')
  | Raise _ => (trace body, s)
  end.

(** The value a run returns, if it returns. *)
Definition returned {A : Type} (m : run A) : option A :=
  match result m with
  | Return a => Some a
  | Raise _ => None
  end.

Definition raises {A : Type} (m : run A) : bool :=
  match result m with
  | Return _ => false
  | Raise _ => true
  end.

(** The denominators of the divisions of a trace, in order. *)
Fixpoint denominators (t : list event) : list Q :=
  match t with
  | [] => []
  | Divide d :: t' => d :: denominators t'
  | Call _ :: t' => denominators t'
  end.

(** The names of the functions called in a trace, in order. *)
Fixpoint calls (t : list event) : list string :=
  match t with
  | [] => []
  | Divide _ :: t' => calls t'
  | Call f :: t' => f :: calls t'
  end.

End Py.

Declare Scope num_scope.
Delimit Scope num_scope with num.
Notation "x <? y" := (PyNum.ltb x y) (at level 70, no associativity) : num_scope.
Notation "x <=? y" := (PyNum.leb x y) (at level 70, no associativity) : num_scope.
Notation "x >? y" := (PyNum.gtb x y) (at level 70, no associativity) : num_scope.
Notation "x >=? y" := (PyNum.geb x y) (at level 70, no associativity) : num_scope.

Declare Scope py_scope.
Delimit Scope py_scope with py.
Notation "x <- m ;; k" := (Py.bind m (fun x => k))
  (at level 61, m at next level, right associativity) : py_scope.
Notation "m ;;; k" := (Py.bind m (fun _ => k))
  (at level 61, right associativity) : py_scope.
Notation "x <~ m ;; k" := (Py.logged_bind m (fun x => k))
  (at level 61, m at next level, right associativity) : py_scope.

(* ================================================================= *)
(** ** Leverage score ([calculate_leverage_score], scraper.py) *)

Local Open Scope Q_scope.
Local Open Scope num_scope.
Local Open Scope py_scope.

(** [calculate_leverage_score(candidate_receipts, opponent_receipts,
    competitiveness)].  The Python default [competitiveness = 50.0] is
    passed by the caller. *)
Definition calculate_leverage_score
    (candidate_receipts opponent_receipts competitiveness : Q) : Py.run Q :=
  Py.called "calculate_leverage_score" ;;;
  if (candidate_receipts <=? 0) || (opponent_receipts <=? 0) then
    Py.ret 50
  else
    funding_ratio <- Py.truediv candidate_receipts opponent_receipts ;;
    let funding_component :=
      if funding_ratio <? 0.5 then 90
      else if funding_ratio <? 0.75 then 75
      else if funding_ratio <? 1.0 then 60
      else if funding_ratio <? 1.5 then 40
      else 20 in
    let competitiveness_component := 100 - Qabs (competitiveness - 50) * 2 in
    let leverage_score :=
      (funding_component * 0.6) + (competitiveness_component * 0.4) in
    Py.ret (PyNum.round2 (PyNum.min 100 (PyNum.max 0 leverage_score))).

(** The funding buckets in the words of the specification: breakpoints
    compared with strict [<], in ascending order, first match wins. *)
Inductive funding_bucket (ratio : Q) : Q -> Prop :=
| bucket_90 : ratio < 0.5 -> funding_bucket ratio 90
| bucket_75 : 0.5 <= ratio -> ratio < 0.75 -> funding_bucket ratio 75
| bucket_60 : 0.75 <= ratio -> ratio < 1 -> funding_bucket ratio 60
| bucket_40 : 1 <= ratio -> ratio < 1.5 -> funding_bucket ratio 40
| bucket_20 : 1.5 <= ratio -> funding_bucket ratio 20.

(** The leverage formula of the specification for a funding component. *)
Definition leverage_formula (fc C : Q) : Q :=
  PyNum.round2 (PyNum.min 100 (PyNum.max 0 (fc * 0.6 + (100 - Qabs (C - 50) * 2) * 0.4))).

(* ================================================================= *)
(** ** The relational store (database_schema.py)

    A table is the list of its rows in insertion order, each with the
    rowid of its [id INTEGER PRIMARY KEY AUTOINCREMENT] column, and the
    largest rowid the table has ever used (SQLite's [sqlite_sequence]).
    The timestamp columns that default to [CURRENT_TIMESTAMP], and the
    columns no statement of the scraper writes, are left out of the rows. *)

Module Sql.

Record table (R : Type) : Type := Table {
  rows : list (Z * R);
  sequence : Z
}.

Arguments Table {R} rows sequence.
Arguments rows {R} t.
Arguments sequence {R} t.

Definition empty {R : Type} : table R := Table [] 0.

Definition max_rowid {R : Type} (rs : list (Z * R)) : Z :=
  fold_right (fun r m => Z.max (fst r) m) 0%Z rs.

(** The rowid AUTOINCREMENT gives the next inserted row. *)
Definition next_rowid {R : Type} (t : table R) : Z :=
  (Z.max (sequence t) (max_rowid (rows t)) + 1)%Z.

(** [INSERT INTO t (...) VALUES (...)]. *)
Definition insert {R : Type} (r : R) (t : table R) : table R :=
  Table (rows t ++ [(next_rowid t, r)]) (next_rowid t).

(** [cursor.lastrowid] after an insert. *)
Definition lastrowid {R : Type} (t : table R) : Z := sequence t.

(** [INSERT OR IGNORE]: the row is dropped when it conflicts with a row
    of the table on a UNIQUE constraint. *)
Definition insert_or_ignore {R : Type} (conflict : R -> R -> bool)
    (r : R) (t : table R) : table R :=
  if existsb (fun x => conflict (snd x) r) (rows t) then t else insert r t.

(** [INSERT OR REPLACE]: the rows it conflicts with are deleted, then the
    row is inserted (with a fresh rowid). *)
Definition insert_or_replace {R : Type} (conflict : R -> R -> bool)
    (r : R) (t : table R) : table R :=
  insert r (Table (filter (fun x => negb (conflict (snd x) r)) (rows t))
                  (sequence t)).

(** [UPDATE t SET ... WHERE ...]. *)
Definition update {R : Type} (where_ : Z -> R -> bool) (set : R -> R)
    (t : table R) : table R :=
  Table (map (fun x => if where_ (fst x) (snd x) then (fst x, set (snd x)) else x)
             (rows t))
        (sequence t).

(** [SELECT ... WHERE ...] followed by [fetchone()]. *)
Definition fetchone {R : Type} (where_ : Z -> R -> bool) (t : table R)
    : option (Z * R) :=
  find (fun x => where_ (fst x) (snd x)) (rows t).

(** [column = ?] where either side may be NULL: NULL equals nothing. *)
Definition eq_nullable {A : Type} (eqb : A -> A -> bool) (x y : option A) : bool :=
  match x, y with
  | Some a, Some b => eqb a b
  | _, _ => false
  end.

End Sql.

Module Candidates.
Record row : Type := Row {
  fec_candidate_id : option string;
  name : string;
  party : string;
  office : string;
  state : option string;
  district : string;
  incumbent : bool;
  candidate_status : string;
  election_year : option Z
}.
End Candidates.

Module Races.
Record row : Type := Row {
  election_id : option Z;
  office : string;
  race_type : string;
  state : option string;
  district : option string;
  general_date : string;
  competitiveness_score : option Q;
  cook_rating : option string
}.
End Races.

Module RaceCandidates.
Record row : Type := Row {
  race_id : Z;
  candidate_id : Z
}.
(** [UNIQUE(race_id, candidate_id)]. *)
Definition conflict (a b : row) : bool :=
  (race_id a =? race_id b)%Z && (candidate_id a =? candidate_id b)%Z.
End RaceCandidates.

Module Issues.
Record row : Type := Row {
  name : string;
  category : string
}.
End Issues.

Module CandidateIssues.
Record row : Type := Row {
  candidate_id : Z;
  issue_id : Z;
  position : string;
  strength : string;
  priority : Z
}.
(** [UNIQUE(candidate_id, issue_id)]. *)
Definition conflict (a b : row) : bool :=
  (candidate_id a =? candidate_id b)%Z && (issue_id a =? issue_id b)%Z.
End CandidateIssues.

Module CampaignFinance.
Record row : Type := Row {
  candidate_id : Z;
  total_receipts : option Q;
  total_disbursements : option Q;
  cash_on_hand : option Q;
  total_contributions : option Q;
  individual_contributions : option Q;
  pac_contributions : option Q;
  party_contributions : option Q;
  candidate_contributions : option Q;
  opponent_total_receipts : option Q;
  funding_gap : option Q;
  funding_ratio : option Q;
  donation_leverage_score : option Q;
  small_dollar_percentage : option Q;
  reporting_period_end : option string
}.
End CampaignFinance.

Module ImpactScores.
Record row : Type := Row {
  candidate_id : Z;
  race_id : Z;
  competitiveness_score : Q;
  funding_leverage_score : Q;
  control_impact_score : Q;
  grassroots_potential_score : Q;
  overall_impact_score : Q;
  recommendation_tier : string
}.
(** [UNIQUE(candidate_id, race_id)]. *)
Definition conflict (a b : row) : bool :=
  (candidate_id a =? candidate_id b)%Z && (race_id a =? race_id b)%Z.
End ImpactScores.

Record database : Type := Database {
  candidates : Sql.table Candidates.row;
  races : Sql.table Races.row;
  race_candidates : Sql.table RaceCandidates.row;
  issues : Sql.table Issues.row;
  candidate_issues : Sql.table CandidateIssues.row;
  campaign_finance : Sql.table CampaignFinance.row;
  impact_scores : Sql.table ImpactScores.row
}.

Definition empty_database : database :=
  Database Sql.empty Sql.empty Sql.empty Sql.empty Sql.empty Sql.empty Sql.empty.

Definition set_candidates (t : Sql.table Candidates.row) (db : database) : database :=
  Database t (races db) (race_candidates db) (issues db) (candidate_issues db)
           (campaign_finance db) (impact_scores db).

Definition set_races (t : Sql.table Races.row) (db : database) : database :=
  Database (candidates db) t (race_candidates db) (issues db) (candidate_issues db)
           (campaign_finance db) (impact_scores db).

Definition set_race_candidates (t : Sql.table RaceCandidates.row) (db : database)
    : database :=
  Database (candidates db) (races db) t (issues db) (candidate_issues db)
           (campaign_finance db) (impact_scores db).

Definition set_issues (t : Sql.table Issues.row) (db : database) : database :=
  Database (candidates db) (races db) (race_candidates db) t (candidate_issues db)
           (campaign_finance db) (impact_scores db).

Definition set_candidate_issues (t : Sql.table CandidateIssues.row) (db : database)
    : database :=
  Database (candidates db) (races db) (race_candidates db) (issues db) t
           (campaign_finance db) (impact_scores db).

Definition set_campaign_finance (t : Sql.table CampaignFinance.row) (db : database)
    : database :=
  Database (candidates db) (races db) (race_candidates db) (issues db)
           (candidate_issues db) t (impact_scores db).

Definition set_impact_scores (t : Sql.table ImpactScores.row) (db : database)
    : database :=
  Database (candidates db) (races db) (race_candidates db) (issues db)
           (candidate_issues db) (campaign_finance db) t.

(** [seed_issues] of database_schema.py: the fifteen catalog issues,
    deduplicated by name. *)
Definition seed_issue_list : list (string * string) :=
  [ ("Climate Change", "Environment"); ("Healthcare Access", "Healthcare");
    ("Immigration Reform", "Immigration"); ("Economic Justice", "Economy");
    ("Crime & Safety", "Justice"); ("Education", "Education");
    ("Reproductive Rights", "Healthcare"); ("Gun Control", "Justice");
    ("Voting Rights", "Democracy"); ("Housing Affordability", "Economy");
    ("Labor Rights", "Economy"); ("LGBTQ+ Rights", "Civil Rights");
    ("Racial Justice", "Civil Rights"); ("Foreign Policy", "International");
    ("Infrastructure", "Economy") ]%string.

Definition seed_issues (db : database) : database :=
  fold_left
    (fun db nc =>
       set_issues
         (Sql.insert_or_ignore
            (fun a b => String.eqb (Issues.name a) (Issues.name b))
            (Issues.Row (fst nc) (snd nc)) (issues db))
         db)
    seed_issue_list db.

(* ================================================================= *)
(** ** Strings and lists of the Python code *)

Module PyStr.

Local Open Scope string_scope.

(** [c.upper()] on an ASCII letter; every other character is kept
    (labels are ASCII). *)
Definition upper_ascii (c : ascii) : ascii :=
  let n := nat_of_ascii c in
  if (97 <=? n)%nat && (n <=? 122)%nat then ascii_of_nat (n - 32) else c.

(** [s.upper()]. *)
Fixpoint upper (s : string) : string :=
  match s with
  | EmptyString => EmptyString
  | String c s' => String (upper_ascii c) (upper s')
  end.

(** [sub in s]: [sub] occurs in [s] as a substring. *)
Fixpoint contains (sub s : string) : bool :=
  if String.prefix sub s then true
  else match s with
       | EmptyString => false
       | String _ s' => contains sub s'
       end.

(** [x in l] for a list of strings. *)
Definition list_in (x : string) (l : list string) : bool :=
  existsb (String.eqb x) l.

(** [l.index(x)]: position of the first occurrence, counted from 0;
    [None] stands for the [ValueError] of an absent element. *)
Fixpoint list_index (x : string) (l : list string) : option Z :=
  match l with
  | [] => None
  | y :: l' =>
      if String.eqb y x then Some 0%Z
      else option_map Z.succ (list_index x l')
  end.

(** [len(s.split(c)) - 1] for a one-character separator [c]: the number
    of occurrences of [c] in [s]. *)
Fixpoint count_char (c : ascii) (s : string) : nat :=
  match s with
  | EmptyString => 0
  | String c' s' =>
      if Ascii.eqb c' c then S (count_char c s') else count_char c s'
  end.

(** Truth value of a string that may be [None]. *)
Definition truthy (s : option string) : bool :=
  match s with
  | Some (String _ _) => true
  | _ => false
  end.

End PyStr.

(* ================================================================= *)
(** ** Records fetched from the FEC API

    A field of a result dictionary is absent, or JSON [null], or a value. *)

Module Fec.

Inductive field (A : Type) : Type :=
| Absent
| Null
| Value (a : A).

Arguments Absent {A}.
Arguments Null {A}.
Arguments Value {A} a.

(** [d.get(key)] and [d.get(key, default)]. *)
Definition get {A : Type} (f : field A) (default : option A) : option A :=
  match f with
  | Absent => default
  | Null => None
  | Value a => Some a
  end.

(** A result of [/candidate/<id>/totals/]; the keys the scraper reads. *)
Record totals : Type := Totals {
  receipts : field Q;
  disbursements : field Q;
  cash_on_hand_end_period : field Q;
  individual_contributions : field Q;
  contributions : field Q;
  other_political_committee_contributions : field Q;
  political_party_committee_contributions : field Q;
  candidate_contribution : field Q;
  coverage_end_date : field string
}.

(** A result of [/candidates/]; the keys the scraper reads.  The string
    fields are strings when present. *)
Record candidate : Type := Candidate {
  candidate_id : option string;
  name : option string;
  party_full : option string;
  party : option string;
  office_full : option string;
  state : option string;
  district : option string;
  incumbent_challenge_full : option string;
  candidate_status : option string;
  election_years : list Z
}.

(** [d.get(key, '')] for a string field. *)
Definition get_str (f : option string) : string :=
  match f with
  | Some s => s
  | None => EmptyString
  end.

End Fec.

(* ================================================================= *)
(** ** Ingestion operations (scraper.py) *)

Local Open Scope string_scope.
Local Open Scope list_scope.

(** [insert_candidate(candidate_data)]: update the row with this FEC id
    if there is one, insert otherwise; returns the candidate's rowid. *)
Definition insert_candidate (candidate_data : Fec.candidate) (db : database)
    : database * Z :=
  let fec_id := Fec.candidate_id candidate_data in
  let name := Fec.get_str (Fec.name candidate_data) in
  let party :=
    match Fec.party_full candidate_data with
    | Some p => p
    | None => Fec.get_str (Fec.party candidate_data)
    end in
  let office := Fec.get_str (Fec.office_full candidate_data) in
  let state := Fec.state candidate_data in
  let district := Fec.get_str (Fec.district candidate_data) in
  let incumbent :=
    String.eqb (Fec.get_str (Fec.incumbent_challenge_full candidate_data))
               "Incumbent" in
  let status := Fec.get_str (Fec.candidate_status candidate_data) in
  let election_year :=
    match Fec.election_years candidate_data with
    | y :: _ => Some y
    | [] => None
    end in
  let same_fec_id (_ : Z) (c : Candidates.row) :=
    Sql.eq_nullable String.eqb (Candidates.fec_candidate_id c) fec_id in
  match Sql.fetchone same_fec_id (candidates db) with
  | Some existing =>
      (set_candidates
         (Sql.update same_fec_id
            (fun c => Candidates.Row (Candidates.fec_candidate_id c) name party
                        office state district incumbent status election_year)
            (candidates db))
         db,
       fst existing)
  | None =>
      let t := Sql.insert
                 (Candidates.Row fec_id name party office state district
                    incumbent status election_year)
                 (candidates db) in
      (set_candidates t db, Sql.lastrowid t)
  end.

(** The dictionary [race_data] the scraper builds for [insert_race]. *)
Module RaceData.
Record dict : Type := Dict {
  office : string;
  state : option string;
  district : option string;
  race_type : string;
  general_date : string
}.
End RaceData.

(** [insert_race(race_data, election_id)]: the rowid of the race with
    this office, state, district and date, inserted if there is none. *)
Definition insert_race (race_data : RaceData.dict) (election_id : option Z)
    (db : database) : database * Z :=
  let office := RaceData.office race_data in
  let race_type := RaceData.race_type race_data in
  let state := RaceData.state race_data in
  let district := RaceData.district race_data in
  let general_date := RaceData.general_date race_data in
  let same_race (_ : Z) (r : Races.row) :=
    String.eqb (Races.office r) office
    && Sql.eq_nullable String.eqb (Races.state r) state
    && Sql.eq_nullable String.eqb (Races.district r) district
    && String.eqb (Races.general_date r) general_date in
  match Sql.fetchone same_race (races db) with
  | Some existing => (db, fst existing)
  | None =>
      let t := Sql.insert
                 (Races.Row election_id office race_type state district
                    general_date None None)
                 (races db) in
      (set_races t db, Sql.lastrowid t)
  end.

(** [link_candidate_to_race(candidate_id, race_id)]. *)
Definition link_candidate_to_race (candidate_id race_id : Z) (db : database)
    : database :=
  set_race_candidates
    (Sql.insert_or_ignore RaceCandidates.conflict
       (RaceCandidates.Row race_id candidate_id) (race_candidates db))
    db.

(** [update_race_competitiveness(race_id, competitiveness_score, rating)]. *)
Definition update_race_competitiveness (race_id : Z) (competitiveness_score : Q)
    (rating : string) (db : database) : database :=
  set_races
    (Sql.update (fun id _ => (id =? race_id)%Z)
       (fun r => Races.Row (Races.election_id r) (Races.office r)
                   (Races.race_type r) (Races.state r) (Races.district r)
                   (Races.general_date r) (Some competitiveness_score)
                   (Some rating))
       (races db))
    db.

(** [insert_campaign_finance(candidate_id, financial_data,
    opponent_receipts)]; [opponent_receipts] is [None] when the caller
    leaves it out.  The body of the [try] can raise only where it divides,
    before it writes; the [except] branch prints, so that the store is
    then left as it was. *)
Definition insert_campaign_finance_body (candidate_id : Z)
    (financial_data : Fec.totals) (opponent_receipts : option Q)
    (db : database) : Py.run database :=
  let receipts :=
    PyNum.or_default (Fec.get (Fec.receipts financial_data) (Some 0)) 0 in
  let disbursements :=
    PyNum.or_default (Fec.get (Fec.disbursements financial_data) (Some 0)) 0 in
  let cash_on_hand :=
    PyNum.or_default
      (Fec.get (Fec.cash_on_hand_end_period financial_data) (Some 0)) 0 in
  let individual_contribs :=
    PyNum.or_default
      (Fec.get (Fec.individual_contributions financial_data) (Some 0)) 0 in
  small_dollar_pct <-
    (if (receipts >? 0) && (individual_contribs >? 0) then
       q <- Py.truediv individual_contribs receipts ;;
       Py.ret (q * 100)
     else Py.ret 0) ;;
  derived <-
    (match opponent_receipts with
     | Some opponent =>
         if PyNum.truthy opponent && (opponent >? 0) then
           let funding_gap := receipts - opponent in
           funding_ratio <-
             (if opponent >? 0 then Py.truediv receipts opponent
              else Py.ret 0) ;;
           leverage_score <- calculate_leverage_score receipts opponent 50 ;;
           Py.ret (Some funding_gap, Some funding_ratio, Some leverage_score)
         else Py.ret (None, None, None)
     | None => Py.ret (None, None, None)
     end) ;;
  let '(funding_gap, funding_ratio, leverage_score) := derived in
  Py.ret
    (set_campaign_finance
       (Sql.insert
          (CampaignFinance.Row
             candidate_id
             (Some receipts)
             (Some disbursements)
             (Some cash_on_hand)
             (Fec.get (Fec.contributions financial_data) (Some 0))
             (Some individual_contribs)
             (Fec.get (Fec.other_political_committee_contributions
                         financial_data) (Some 0))
             (Fec.get (Fec.political_party_committee_contributions
                         financial_data) (Some 0))
             (Fec.get (Fec.candidate_contribution financial_data) (Some 0))
             opponent_receipts
             funding_gap
             funding_ratio
             leverage_score
             (Some small_dollar_pct)
             (Fec.get (Fec.coverage_end_date financial_data) None))
          (campaign_finance db))
       db).

Definition insert_campaign_finance (candidate_id : Z)
    (financial_data : Fec.totals) (opponent_receipts : option Q)
    (db : database) : Py.logged database :=
  Py.try_except
    (insert_campaign_finance_body candidate_id financial_data
       opponent_receipts db)
    db.

(** The two priority lists of [assign_candidate_issues]. *)
Definition democratic_priorities : list string :=
  [ "Climate Change"; "Healthcare Access"; "Economic Justice";
    "Reproductive Rights"; "LGBTQ+ Rights"; "Voting Rights" ].

Definition republican_priorities : list string :=
  [ "Crime & Safety"; "Immigration Reform"; "Economic Justice";
    "Gun Control"; "Foreign Policy" ].

(** The position, strength and priority chosen for an issue from a
    priority list; [None] is the [continue] of the loop. *)
Definition position_from (issue_name : string) (priorities : list string)
    : option (string * string * Z) :=
  if PyStr.list_in issue_name priorities then
    match PyStr.list_index issue_name priorities with
    | Some i => Some ("Support", "Strong", (i + 1)%Z)
    | None => None
    end
  else None.

(** [assign_candidate_issues(candidate_id, party)]. *)
Definition assign_candidate_issues (candidate_id : Z) (party : string)
    (db : database) : database :=
  fold_left
    (fun db issue =>
       let issue_id := fst issue in
       let issue_name := Issues.name (snd issue) in
       let choice :=
         if PyStr.contains "DEMOCRATIC" (PyStr.upper party) then
           position_from issue_name democratic_priorities
         else if PyStr.contains "REPUBLICAN" (PyStr.upper party) then
           position_from issue_name republican_priorities
         else None in
       match choice with
       | Some (position, strength, priority) =>
           set_candidate_issues
             (Sql.insert_or_ignore CandidateIssues.conflict
                (CandidateIssues.Row candidate_id issue_id position strength
                   priority)
                (candidate_issues db))
             db
       | None => db
       end)
    (Sql.rows (issues db)) db.

(* ================================================================= *)
(** ** Impact scores ([calculate_impact_scores], scraper.py) *)

(** A row of the query that joins race links, candidates and finance. *)
Module Pair.
Record row : Type := Row {
  race_id : Z;
  candidate_id : Z;
  donation_leverage_score : option Q;
  small_dollar_percentage : option Q;
  incumbent : bool
}.
End Pair.

(** [SELECT ... FROM race_candidates rc JOIN candidates c ON
    rc.candidate_id = c.id LEFT JOIN campaign_finance cf ON
    c.id = cf.candidate_id], rows in nested-loop order: a link without a
    candidate row gives nothing, a candidate without finance rows gives
    one row of NULLs, a candidate with several gives one row for each. *)
Definition select_pairs (db : database) : list Pair.row :=
  flat_map
    (fun rc =>
       flat_map
         (fun c =>
            if (RaceCandidates.candidate_id (snd rc) =? fst c)%Z then
              match
                filter
                  (fun cf => (fst c =? CampaignFinance.candidate_id (snd cf))%Z)
                  (Sql.rows (campaign_finance db))
              with
              | [] =>
                  [ Pair.Row (RaceCandidates.race_id (snd rc))
                      (RaceCandidates.candidate_id (snd rc)) None None
                      (Candidates.incumbent (snd c)) ]
              | cfs =>
                  map
                    (fun cf =>
                       Pair.Row (RaceCandidates.race_id (snd rc))
                         (RaceCandidates.candidate_id (snd rc))
                         (CampaignFinance.donation_leverage_score (snd cf))
                         (CampaignFinance.small_dollar_percentage (snd cf))
                         (Candidates.incumbent (snd c)))
                    cfs
              end
            else [])
         (Sql.rows (candidates db)))
    (Sql.rows (race_candidates db)).

(** The body of the loop over the pairs: the row it writes. *)
Definition impact_score_row (pair : Pair.row) : ImpactScores.row :=
  let race_id := Pair.race_id pair in
  let candidate_id := Pair.candidate_id pair in
  let leverage := PyNum.or_default (Pair.donation_leverage_score pair) 50 in
  let small_dollar_pct :=
    PyNum.or_default (Pair.small_dollar_percentage pair) 30 in
  let is_incumbent := Pair.incumbent pair in
  let competitiveness_score := 50 in
  let funding_leverage_score := leverage in
  let control_impact_score := 60 in
  let grassroots_potential := PyNum.min 100 (small_dollar_pct * 2) in
  let control_impact_score :=
    if negb is_incumbent then control_impact_score + 10
    else control_impact_score in
  let overall_score :=
    competitiveness_score * 0.3 +
    funding_leverage_score * 0.35 +
    control_impact_score * 0.20 +
    grassroots_potential * 0.15 in
  let tier :=
    if overall_score >=? 75 then "High Impact"
    else if overall_score >=? 60 then "Medium-High Impact"
    else if overall_score >=? 45 then "Medium Impact"
    else "Lower Priority" in
  ImpactScores.Row candidate_id race_id competitiveness_score
    funding_leverage_score control_impact_score grassroots_potential
    overall_score tier.

(** [calculate_impact_scores()]. *)
Definition calculate_impact_scores (db : database) : database :=
  fold_left
    (fun db pair =>
       set_impact_scores
         (Sql.insert_or_replace ImpactScores.conflict (impact_score_row pair)
            (impact_scores db))
         db)
    (select_pairs db) db.

(* ================================================================= *)
(** ** The full ingestion run ([scrape_all_data], scraper.py)

    The results of the fetches are inputs: each fetched candidate comes
    with the result of [fetch_fec_candidate_financials] for it ([None]
    when the fetch failed or had no result).  The elections,
    demographics and source-log tables are not part of the store here;
    [election_id] is the id [create_default_election] returned.  Every
    statement is committed when it is executed, so the store of a run
    that raises is the store at that point. *)

Module Fetched.
Record data : Type := Data {
  house_candidates : list (Fec.candidate * option Fec.totals);
  senate_candidates : list (Fec.candidate * option Fec.totals)
}.
End Fetched.

(** A [for] loop whose body cannot raise. *)
Fixpoint for_each {A S : Type} (body : S -> A -> Py.logged S) (l : list A)
    (s : S) : Py.logged S :=
  match l with
  | [] => Py.logged_ret s
  | x :: l' => s' <~ body s x ;; for_each body l' s'
  end.

(** A Python [dict] with string keys, as the list of its items. *)
Fixpoint dict_get {V : Type} (key : string) (d : list (string * V)) : option V :=
  match d with
  | [] => None
  | (k, v) :: d' => if String.eqb k key then Some v else dict_get key d'
  end.

(** [fetch_ballotpedia_race_ratings()]: the fixed list of simulated
    ratings (state, district, rating, competitiveness). *)
Definition competitive_races : list (string * string * string * Q) :=
  [ ("AZ", "01", "Toss-up", 50); ("CA", "13", "Lean D", 45);
    ("PA", "07", "Toss-up", 50); ("MI", "03", "Lean R", 55);
    ("NC", "01", "Toss-up", 50); ("TX", "23", "Lean R", 55);
    ("NV", "03", "Toss-up", 50); ("GA", "06", "Lean D", 45) ].

(** The body of the loop over the House candidates; the state carried is
    the store and the dictionary [races_by_district]. *)
Definition house_step (election_id : Z)
    (s : database * list (string * Z))
    (item : Fec.candidate * option Fec.totals)
    : Py.logged (database * list (string * Z)) :=
  let '(db, races_by_district) := s in
  let '(candidate, financials) := item in
  let '(db, candidate_id) := insert_candidate candidate db in
  let state := Fec.state candidate in
  let district := Fec.district candidate in
  let '(db, races_by_district) :=
    if PyStr.truthy state && PyStr.truthy district then
      let race_key :=
        (Fec.get_str state ++ "-" ++ Fec.get_str district)%string in
      let '(db, races_by_district, race_id) :=
        match dict_get race_key races_by_district with
        | None =>
            let race_data :=
              RaceData.Dict "U.S. House" state district "House" "2026-11-03" in
            let '(db, race_id) := insert_race race_data (Some election_id) db in
            (db, races_by_district ++ [(race_key, race_id)], race_id)
        | Some race_id => (db, races_by_district, race_id)
        end in
      let db := link_candidate_to_race candidate_id race_id db in
      let party := Fec.get_str (Fec.party_full candidate) in
      (assign_candidate_issues candidate_id party db, races_by_district)
    else (db, races_by_district) in
  match financials with
  | Some financials =>
      db <~ insert_campaign_finance candidate_id financials None db ;;
      Py.logged_ret (db, races_by_district)
  | None => Py.logged_ret (db, races_by_district)
  end.

(** The body of the loop over the Senate candidates; the dictionary is
    [senate_races]. *)
Definition senate_step (election_id : Z)
    (s : database * list (string * Z))
    (item : Fec.candidate * option Fec.totals)
    : Py.logged (database * list (string * Z)) :=
  let '(db, senate_races) := s in
  let '(candidate, financials) := item in
  let '(db, candidate_id) := insert_candidate candidate db in
  let state := Fec.state candidate in
  let '(db, senate_races) :=
    if PyStr.truthy state then
      let '(db, senate_races, race_id) :=
        match dict_get (Fec.get_str state) senate_races with
        | None =>
            let race_data :=
              RaceData.Dict "U.S. Senate" state None "Senate" "2026-11-03" in
            let '(db, race_id) := insert_race race_data (Some election_id) db in
            (db, senate_races ++ [(Fec.get_str state, race_id)], race_id)
        | Some race_id => (db, senate_races, race_id)
        end in
      let db := link_candidate_to_race candidate_id race_id db in
      let party := Fec.get_str (Fec.party_full candidate) in
      (assign_candidate_issues candidate_id party db, senate_races)
    else (db, senate_races) in
  match financials with
  | Some financials =>
      db <~ insert_campaign_finance candidate_id financials None db ;;
      Py.logged_ret (db, senate_races)
  | None => Py.logged_ret (db, senate_races)
  end.

(** The loop that copies the race ratings into the races. *)
Definition update_ratings (races_by_district : list (string * Z))
    (db : database) : database :=
  fold_left
    (fun db rating =>
       let '(state, district, rating_name, competitiveness) := rating in
       let race_key := (state ++ "-" ++ district)%string in
       match dict_get race_key races_by_district with
       | Some race_id =>
           update_race_competitiveness race_id competitiveness rating_name db
       | None => db
       end)
    competitive_races db.

(** The loop that fetches the demographics of the districts.  Its first
    statement, [state, district = race_key.split('-')], raises
    [ValueError] unless the key has exactly one '-'; the fetch and the
    insert that follow are inside [try] blocks and write to a table that
    is not part of the store. *)
Fixpoint demographics_loop (items : list (string * Z)) : Py.run unit :=
  match items with
  | [] => Py.ret tt
  | (race_key, race_id) :: items' =>
      if (PyStr.count_char "-" race_key =? 1)%nat then demographics_loop items'
      else Py.raise Py.ValueError
  end.

(** How a run of [scrape_all_data] ends: the store it leaves, and the
    exception that left it, if any. *)
Record finished : Type := Finished {
  store : database;
  raised : option Py.exn
}.

(** [scrape_all_data()], up to the end of [calculate_impact_scores]. *)
Definition scrape_all_data (election_id : Z) (fetched : Fetched.data)
    (db : database) : Py.logged finished :=
  s <~ for_each (house_step election_id) (Fetched.house_candidates fetched)
         (db, []) ;;
  let '(db, races_by_district) := s in
  s <~ for_each (senate_step election_id) (Fetched.senate_candidates fetched)
         (db, []) ;;
  let '(db, senate_races) := s in
  let db := update_ratings races_by_district db in
  let demographics := demographics_loop (firstn 20 races_by_district) in
  match Py.result demographics with
  | Py.Raise e => (Py.trace demographics, Finished db (Some e))
  | Py.Return _ =>
      (Py.trace demographics, Finished (calculate_impact_scores db) None)
  end.

(* ================================================================= *)
(** ** Sample data

    Two candidates of one House district, as the FEC API returns them,
    and the totals of the first. *)

Module Sample.

Definition challenger : Fec.candidate :=
  Fec.Candidate (Some "H6AZ01001") (Some "DOE, JANE")
    (Some "DEMOCRATIC PARTY") (Some "DEM") (Some "House") (Some "AZ")
    (Some "01") (Some "Challenger") (Some "C") [2026%Z].

Definition incumbent : Fec.candidate :=
  Fec.Candidate (Some "H2AZ01002") (Some "ROE, RICHARD")
    (Some "REPUBLICAN PARTY") (Some "REP") (Some "House") (Some "AZ")
    (Some "01") (Some "Incumbent") (Some "C") [2026%Z].

Definition challenger_totals : Fec.totals :=
  Fec.Totals (Fec.Value 100000) (Fec.Value 80000) (Fec.Value 20000)
    (Fec.Value 50000) (Fec.Value 90000) (Fec.Value 30000) Fec.Null
    Fec.Absent (Fec.Value "2026-06-30").

Definition house_race : RaceData.dict :=
  RaceData.Dict "U.S. House" (Some "AZ") (Some "01") "House" "2026-11-03".

(** A store with the seeded issues and the challenger linked to the race,
    without any finance row. *)
Definition store_without_finance : database :=
  let db := seed_issues empty_database in
  let '(db, candidate_id) := insert_candidate challenger db in
  let '(db, race_id) := insert_race house_race (Some 1%Z) db in
  link_candidate_to_race candidate_id race_id db.

(** The same store after the challenger's totals were stored with an
    opponent figure of 400000. *)
Definition store_with_finance : database :=
  snd (insert_campaign_finance 1%Z challenger_totals (Some 400000)
         store_without_finance).

(** What the API returned in a run that fetched the two candidates and
    the totals of the challenger only. *)
Definition fetched : Fetched.data :=
  Fetched.Data [ (challenger, Some challenger_totals); (incumbent, None) ] [].

End Sample.

(* ================================================================= *)
(** * Vocabulary of the properties

    Closed forms of what the code computes and the predicates the
    properties are stated with. *)

Local Open Scope string_scope.
Local Open Scope list_scope.
Local Open Scope Q_scope.
Local Open Scope num_scope.

(** ** Scores *)

(** The funding component the code selects, as a function of the ratio. *)
Definition funding_component_of (funding_ratio : Q) : Q :=
  if funding_ratio <? 0.5 then 90
  else if funding_ratio <? 0.75 then 75
  else if funding_ratio <? 1.0 then 60
  else if funding_ratio <? 1.5 then 40
  else 20.

(** ** Tables under replace-on-conflict *)

(** One statement, on the list of the rows' columns. *)
Definition upsert {R : Type} (conflict : R -> R -> bool) (l : list R) (x : R)
    : list R :=
  filter (fun y => negb (conflict y x)) l ++ [x].

Definition upserts {R : Type} (conflict : R -> R -> bool) (xs : list R)
    (l : list R) : list R :=
  fold_left (upsert conflict) xs l.

(** The rows no statement of [xs] replaces. *)
Definition untouched {R : Type} (conflict : R -> R -> bool) (xs : list R)
    (y : R) : bool :=
  negb (existsb (conflict y) xs).

(** The columns of the rows of a table, without the rowids. *)
Definition columns {R : Type} (t : Sql.table R) : list R :=
  map snd (Sql.rows t).

(** The key of the UNIQUE constraint of [impact_scores]. *)
Definition impact_key (r : ImpactScores.row) : Z * Z :=
  (ImpactScores.candidate_id r, ImpactScores.race_id r).

Definition pair_key (p : Pair.row) : Z * Z :=
  (Pair.candidate_id p, Pair.race_id p).

(** The loop of [calculate_impact_scores] over a list of pairs. *)
Definition write_impact_scores (pairs : list Pair.row) (db : database)
    : database :=
  fold_left
    (fun db pair =>
       set_impact_scores
         (Sql.insert_or_replace ImpactScores.conflict (impact_score_row pair)
            (impact_scores db))
         db)
    pairs db.

(** The tier the code selects, as a function of the overall score. *)
Definition tier_of (overall_score : Q) : string :=
  if overall_score >=? 75 then "High Impact"
  else if overall_score >=? 60 then "Medium-High Impact"
  else if overall_score >=? 45 then "Medium Impact"
  else "Lower Priority".

(** The scores of a row are in range when the stored figures are. *)
Definition scores_in_range (r : ImpactScores.row) : Prop :=
  (0 <= ImpactScores.competitiveness_score r <= 100) /\
  (0 <= ImpactScores.funding_leverage_score r <= 100) /\
  (0 <= ImpactScores.control_impact_score r <= 100) /\
  (0 <= ImpactScores.grassroots_potential_score r <= 100) /\
  (0 <= ImpactScores.overall_impact_score r <= 100).

(** No row has a rowid above the recorded sequence. *)
Definition consistent {R : Type} (t : Sql.table R) : Prop :=
  (Sql.max_rowid (Sql.rows t) <= Sql.sequence t)%Z.

Definition replace_all {R : Type} (conflict : R -> R -> bool) (xs : list R)
    (t : Sql.table R) : Sql.table R :=
  fold_left (fun t x => Sql.insert_or_replace conflict x t) xs t.

(** ** Finance rows *)

(** The receipts and individual contributions [insert_campaign_finance]
    reads from the totals: a missing, null or zero figure is 0. *)
Definition receipts_of (financial_data : Fec.totals) : Q :=
  PyNum.or_default (Fec.get (Fec.receipts financial_data) (Some 0)) 0.

Definition individual_contribs_of (financial_data : Fec.totals) : Q :=
  PyNum.or_default
    (Fec.get (Fec.individual_contributions financial_data) (Some 0)) 0.

(** The opponent figure passes the guard of the leverage block. *)
Definition opponent_known (opponent_receipts : option Q) : bool :=
  match opponent_receipts with
  | Some opponent => PyNum.truthy opponent && (opponent >? 0)
  | None => false
  end.

(** The derived columns the leverage block stores. *)
Definition derived_columns (receipts : Q) (opponent_receipts : option Q)
    : option Q * option Q * option Q :=
  match opponent_receipts with
  | Some opponent =>
      if opponent_known opponent_receipts then
        (Some (receipts - opponent),
         Some (receipts / opponent),
         Some (if receipts >? 0 then
                 leverage_formula (funding_component_of (receipts / opponent)) 50
               else 50))
      else (None, None, None)
  | None => (None, None, None)
  end.

(** The small-dollar percentage stored. *)
Definition small_dollar_of (financial_data : Fec.totals) : Q :=
  if (receipts_of financial_data >? 0)
     && (individual_contribs_of financial_data >? 0)
  then individual_contribs_of financial_data / receipts_of financial_data * 100
  else 0.

(** The row stored for the totals and the opponent figure. *)
Definition finance_row (candidate_id : Z) (financial_data : Fec.totals)
    (opponent_receipts : option Q) : CampaignFinance.row :=
  let '(funding_gap, funding_ratio, leverage_score) :=
    derived_columns (receipts_of financial_data) opponent_receipts in
  CampaignFinance.Row
    candidate_id
    (Some (receipts_of financial_data))
    (Some (PyNum.or_default
             (Fec.get (Fec.disbursements financial_data) (Some 0)) 0))
    (Some (PyNum.or_default
             (Fec.get (Fec.cash_on_hand_end_period financial_data) (Some 0)) 0))
    (Fec.get (Fec.contributions financial_data) (Some 0))
    (Some (individual_contribs_of financial_data))
    (Fec.get (Fec.other_political_committee_contributions financial_data)
       (Some 0))
    (Fec.get (Fec.political_party_committee_contributions financial_data)
       (Some 0))
    (Fec.get (Fec.candidate_contribution financial_data) (Some 0))
    opponent_receipts
    funding_gap
    funding_ratio
    leverage_score
    (Some (small_dollar_of financial_data))
    (Fec.get (Fec.coverage_end_date financial_data) None).

(** The divisions and calls of one run of [insert_campaign_finance]. *)
Definition finance_trace (financial_data : Fec.totals)
    (opponent_receipts : option Q) : list Py.event :=
  (if (receipts_of financial_data >? 0)
      && (individual_contribs_of financial_data >? 0)
   then [Py.Divide (receipts_of financial_data)] else []) ++
  match opponent_receipts with
  | Some opponent =>
      if opponent_known opponent_receipts then
        [Py.Divide opponent; Py.Call "calculate_leverage_score"] ++
        (if receipts_of financial_data >? 0 then [Py.Divide opponent] else [])
      else []
  | None => []
  end.

(** Totals of a candidate who has raised nothing. *)
Definition zero_receipts : Fec.totals :=
  Fec.Totals (Fec.Value 0) (Fec.Value 0) (Fec.Value 0) (Fec.Value 0)
    (Fec.Value 0) (Fec.Value 0) (Fec.Value 0) (Fec.Value 0) Fec.Absent.

(** The leverage scores stored in the finance table after a run. *)
Definition stored_leverage (m : Py.logged database) : list (option Q) :=
  map CampaignFinance.donation_leverage_score
      (columns (campaign_finance (snd m))).

(** ** Issue positions *)

(** [name] has the 1-based rank [k] in [l]: it stands at position [k],
    and nowhere before. *)
Definition rank_in (l : list string) (name : string) (k : Z) : Prop :=
  (1 <= k)%Z /\
  nth_error l (Z.to_nat (k - 1)) = Some name /\
  forall j, (j < Z.to_nat (k - 1))%nat -> nth_error l j <> Some name.

(** The rows of the [INSERT OR IGNORE] statements the loop executes for a
    catalog, in catalog order. *)
Definition issue_statements (candidate_id : Z) (party : string)
    (catalog : list (Z * Issues.row)) : list CandidateIssues.row :=
  flat_map
    (fun issue =>
       match
         (if PyStr.contains "DEMOCRATIC" (PyStr.upper party) then
            position_from (Issues.name (snd issue)) democratic_priorities
          else if PyStr.contains "REPUBLICAN" (PyStr.upper party) then
            position_from (Issues.name (snd issue)) republican_priorities
          else None)
       with
       | Some (position, strength, priority) =>
           [CandidateIssues.Row candidate_id (fst issue) position strength
              priority]
       | None => []
       end)
    catalog.

(** [INSERT OR IGNORE] of a list of rows, one after the other. *)
Definition insert_all_or_ignore (stmts : list CandidateIssues.row)
    (t : Sql.table CandidateIssues.row) : Sql.table CandidateIssues.row :=
  fold_left (fun t r => Sql.insert_or_ignore CandidateIssues.conflict r t)
            stmts t.

(** The statements are those of the catalog issues of the priority list
    [l], each with "Support", "Strong" and the rank of the issue in [l]. *)
Definition positions_of (candidate_id : Z) (l : list string)
    (catalog : list (Z * Issues.row)) (stmts : list CandidateIssues.row)
    : Prop :=
  Forall2
    (fun issue r =>
       exists k, rank_in l (Issues.name (snd issue)) k /\
                 r = CandidateIssues.Row candidate_id (fst issue)
                       "Support" "Strong" k)
    (filter (fun issue => PyStr.list_in (Issues.name (snd issue)) l) catalog)
    stmts.

(** No two rows of a list conflict. *)
Fixpoint conflict_free (stmts : list CandidateIssues.row) : Prop :=
  match stmts with
  | [] => True
  | r :: rest =>
      (forall r', In r' rest -> CandidateIssues.conflict r r' = false) /\
      conflict_free rest
  end.

(** The issue and priority of each stored position, in table order. *)
Definition stored_positions (db : database) : list (Z * Z) :=
  map (fun r => (CandidateIssues.issue_id r, CandidateIssues.priority r))
      (columns (candidate_issues db)).

(** ** The ingestion run *)

(** A finance row without the columns derived from an opponent figure. *)
Definition no_opponent_columns (cf : CampaignFinance.row) : Prop :=
  CampaignFinance.opponent_total_receipts cf = None /\
  CampaignFinance.funding_gap cf = None /\
  CampaignFinance.funding_ratio cf = None /\
  CampaignFinance.donation_leverage_score cf = None.

(** From [db] to [db'] the finance table only grew, by rows without
    opponent columns, and the impact scores were not written. *)
Definition finance_grows (db db' : database) : Prop :=
  impact_scores db' = impact_scores db /\
  exists added,
    columns (campaign_finance db') = columns (campaign_finance db) ++ added /\
    Forall no_opponent_columns added.

(** A loop body that calls nothing and lets the finance table grow by
    rows without opponent columns. *)
Definition quiet_step {A D : Type}
    (body : database * D -> A -> Py.logged (database * D)) : Prop :=
  forall s item,
    Py.calls (fst (body s item)) = [] /\
    finance_grows (fst s) (fst (snd (body s item))).

(** A key of [races_by_district] that splits in two at its '-'. *)
Definition splits_in_two (item : string * Z) : Prop :=
  PyStr.count_char "-" (fst item) = 1%nat.

(** A fetched candidate whose state and district have no '-'. *)
Definition dashless (item : Fec.candidate * option Fec.totals) : Prop :=
  PyStr.count_char "-" (Fec.get_str (Fec.state (fst item))) = 0%nat /\
  PyStr.count_char "-" (Fec.get_str (Fec.district (fst item))) = 0%nat.

(** The stores the code produces: a new store, possibly seeded with the
    issues, after any number of ingestion runs. *)
Inductive pipeline_store : database -> Prop :=
| store_new : pipeline_store empty_database
| store_seeded (db : database) :
    pipeline_store db -> pipeline_store (seed_issues db)
| store_scraped (db : database) (election_id : Z) (fetched : Fetched.data) :
    pipeline_store db ->
    pipeline_store (store (snd (scrape_all_data election_id fetched db))).

(* ================================================================= *)
(** * Properties *)

(** ** Facts about Python numbers *)

Module PyNumFacts.

Import PyNum.
Local Open Scope Q_scope.

Lemma leb_iff x y : leb x y = true <-> x <= y.
Proof. apply Qle_bool_iff. Qed.

Lemma ltb_iff x y : ltb x y = true <-> x < y.
Proof.
  unfold ltb. rewrite negb_true_iff.
  split; intro H.
  - apply Qnot_le_lt. intro Hle. apply Qle_bool_iff in Hle. congruence.
  - destruct (Qle_bool y x) eqn:E; [|reflexivity].
    apply Qle_bool_iff in E. exfalso. exact (Qlt_not_le _ _ H E).
Qed.

Lemma ltb_false_iff x y : ltb x y = false <-> y <= x.
Proof.
  unfold ltb. rewrite negb_false_iff. apply Qle_bool_iff.
Qed.

Lemma leb_false_iff x y : leb x y = false <-> y < x.
Proof.
  rewrite <- ltb_iff. unfold ltb, leb.
  destruct (Qle_bool x y); simpl; split; congruence.
Qed.

Lemma truthy_false_iff x : truthy x = false <-> x == 0.
Proof.
  unfold truthy. rewrite negb_false_iff. apply Qeq_bool_iff.
Qed.

Lemma max_lower a b : a <= max a b.
Proof.
  unfold max, gtb. destruct (ltb a b) eqn:E.
  - apply ltb_iff in E. apply Qlt_le_weak. exact E.
  - apply Qle_refl.
Qed.

Lemma max_upper a b c : a <= c -> b <= c -> max a b <= c.
Proof. unfold max. destruct (gtb b a); auto. Qed.

Lemma min_upper a b : min a b <= a.
Proof.
  unfold min. destruct (ltb b a) eqn:E.
  - apply ltb_iff in E. apply Qlt_le_weak. exact E.
  - apply Qle_refl.
Qed.

Lemma min_upper_r a b : min a b <= b.
Proof.
  unfold min. destruct (ltb b a) eqn:E.
  - apply Qle_refl.
  - apply ltb_false_iff in E. exact E.
Qed.

Lemma min_lower a b c : c <= a -> c <= b -> c <= min a b.
Proof. unfold min. destruct (ltb b a); auto. Qed.

(** Rounding to the nearest integer is squeezed by integer bounds. *)
Lemma round_half_even_bounds (x : num) (lo hi : Z) :
  inject_Z lo <= x -> x <= inject_Z hi ->
  (lo <= round_half_even x <= hi)%Z.
Proof.
  intros Hlo Hhi.
  assert (Hf : (lo <= Qfloor x)%Z).
  { rewrite <- (Qfloor_Z lo). apply Qfloor_resp_le. exact Hlo. }
  assert (Hfx : inject_Z (Qfloor x) <= x) by apply Qfloor_le.
  assert (Hfh : (Qfloor x <= hi)%Z).
  { rewrite Zle_Qle. eapply Qle_trans; eauto. }
  unfold round_half_even.
  destruct (ltb (x - inject_Z (Qfloor x)) (1 # 2)) eqn:E1; [lia|].
  (* from here on the fractional part is at least one half, so x is not
     an integer and the floor is strictly below [hi] *)
  assert (Hlt : (Qfloor x < hi)%Z).
  { apply ltb_false_iff in E1.
    destruct (Z.eq_dec (Qfloor x) hi) as [Heq|Hne]; [|lia].
    exfalso. rewrite Heq in E1.
    assert (x - inject_Z hi <= 0) by lra. lra. }
  destruct (ltb (1 # 2) (x - inject_Z (Qfloor x))); [lia|].
  destruct (Z.even (Qfloor x)); lia.
Qed.

Lemma round2_bounds (x : num) :
  0 <= x -> x <= 100 -> 0 <= round2 x /\ round2 x <= 100.
Proof.
  intros H0 H100.
  destruct (@round_half_even_bounds (x * 100) 0 10000) as [Ha Hb].
  - change (inject_Z 0) with 0. lra.
  - change (inject_Z 10000) with (10000 # 1). lra.
  - unfold round2. rewrite Zle_Qle in Ha, Hb.
    change (inject_Z 0) with 0 in Ha.
    change (inject_Z 10000) with (10000 # 1) in Hb.
    split.
    + apply Qle_shift_div_l; lra.
    + apply Qle_shift_div_r; lra.
Qed.

End PyNumFacts.

(** ** Facts about traces *)

Module PyFacts.

Import Py.

Lemma denominators_app t1 t2 :
  denominators (t1 ++ t2) = denominators t1 ++ denominators t2.
Proof.
  induction t1 as [|[d|f] t1 IH]; simpl; rewrite ?IH; reflexivity.
Qed.

Lemma calls_app t1 t2 : calls (t1 ++ t2) = calls t1 ++ calls t2.
Proof.
  induction t1 as [|[d|f] t1 IH]; simpl; rewrite ?IH; reflexivity.
Qed.

End PyFacts.

(* ================================================================= *)
(** ** The leverage score *)

Section Leverage.

Local Open Scope Q_scope.
Local Open Scope num_scope.

Lemma funding_component_of_bucket (ratio : Q) :
  funding_bucket ratio (funding_component_of ratio).
Proof.
  unfold funding_component_of.
  destruct (ratio <? 0.5) eqn:E1.
  { apply bucket_90. apply PyNumFacts.ltb_iff. exact E1. }
  apply PyNumFacts.ltb_false_iff in E1.
  destruct (ratio <? 0.75) eqn:E2.
  { apply bucket_75; [exact E1 | apply PyNumFacts.ltb_iff; exact E2]. }
  apply PyNumFacts.ltb_false_iff in E2.
  destruct (ratio <? 1.0) eqn:E3.
  { apply PyNumFacts.ltb_iff in E3. apply bucket_60; [exact E2 | lra]. }
  apply PyNumFacts.ltb_false_iff in E3.
  destruct (ratio <? 1.5) eqn:E4.
  { apply PyNumFacts.ltb_iff in E4. apply bucket_40; [lra | exact E4]. }
  apply PyNumFacts.ltb_false_iff in E4.
  apply bucket_20. exact E4.
Qed.

(** The buckets do not overlap: a ratio has one funding component. *)
Lemma funding_bucket_functional (ratio fc1 fc2 : Q) :
  funding_bucket ratio fc1 -> funding_bucket ratio fc2 -> fc1 = fc2.
Proof.
  intros H1 H2. destruct H1; destruct H2; try reflexivity; exfalso; lra.
Qed.

Lemma truediv_nonzero (x y : Q) :
  ~ y == 0 ->
  Py.truediv x y = Py.Run [Py.Divide y] (Py.Return (x / y)).
Proof.
  intro Hy. unfold Py.truediv.
  destruct (Qeq_bool y 0) eqn:E; [|reflexivity].
  apply Qeq_bool_iff in E. contradiction.
Qed.

(** With a non-positive receipts figure the score is the default. *)
Lemma calculate_leverage_score_default (R O C : Q) :
  R <= 0 \/ O <= 0 ->
  calculate_leverage_score R O C =
  Py.Run [Py.Call "calculate_leverage_score"] (Py.Return 50).
Proof.
  intro H. unfold calculate_leverage_score.
  assert (E : (R <=? 0) || (O <=? 0) = true).
  { apply orb_true_iff.
    destruct H as [H|H]; [left|right]; apply PyNumFacts.leb_iff; exact H. }
  rewrite E. reflexivity.
Qed.

(** With both receipts positive the score is computed from the ratio,
    after one division by the opponent's receipts. *)
Lemma calculate_leverage_score_computed (R O C : Q) :
  0 < R -> 0 < O ->
  calculate_leverage_score R O C =
  Py.Run [Py.Call "calculate_leverage_score"; Py.Divide O]
         (Py.Return (leverage_formula (funding_component_of (R / O)) C)).
Proof.
  intros HR HO. unfold calculate_leverage_score.
  assert (E : (R <=? 0) || (O <=? 0) = false).
  { apply orb_false_iff. split; apply PyNumFacts.leb_false_iff; assumption. }
  rewrite E. rewrite truediv_nonzero by lra. reflexivity.
Qed.

Lemma leverage_formula_bounds (fc C : Q) :
  0 <= leverage_formula fc C /\ leverage_formula fc C <= 100.
Proof.
  unfold leverage_formula. apply PyNumFacts.round2_bounds.
  - apply PyNumFacts.min_lower; [lra | apply PyNumFacts.max_lower].
  - apply PyNumFacts.min_upper.
Qed.

End Leverage.

Section LeverageClaims.

Local Open Scope Q_scope.



End LeverageClaims.

(* ================================================================= *)
(** ** Replace-on-conflict writes

    The columns of the rows of a table, after a sequence of
    [INSERT OR REPLACE] statements, for a UNIQUE constraint on a key. *)

Section Upsert.

Variables (R K : Type).
Variable key : R -> K.
Variable conflict : R -> R -> bool.
Hypothesis conflict_spec : forall a b, conflict a b = true <-> key a = key b.

Lemma conflict_refl (a : R) : conflict a a = true.
Proof. apply conflict_spec. reflexivity. Qed.

Lemma conflict_false (a b : R) : conflict a b = false <-> key a <> key b.
Proof.
  split.
  - intros H Heq. apply conflict_spec in Heq. congruence.
  - intro H. destruct (conflict a b) eqn:E; [|reflexivity].
    apply conflict_spec in E. contradiction.
Qed.

Lemma filter_untouched_cons (x : R) (xs l : list R) :
  filter (untouched conflict xs) (filter (fun y => negb (conflict y x)) l) =
  filter (untouched conflict (x :: xs)) l.
Proof.
  assert (Hc : forall y, untouched conflict (x :: xs) y =
                         negb (conflict y x) && untouched conflict xs y).
  { intro y. unfold untouched. simpl. apply negb_orb. }
  induction l as [|y l IH]; [reflexivity|].
  cbn [filter]. rewrite Hc.
  destruct (conflict y x); cbn [negb andb filter].
  - exact IH.
  - destruct (untouched conflict xs y); rewrite IH; reflexivity.
Qed.

Lemma filter_untouched_nil (l : list R) : filter (untouched conflict []) l = l.
Proof.
  induction l as [|y l IH]; simpl; [|rewrite IH]; reflexivity.
Qed.

(** The statements split the table: the old rows they do not touch, then
    what they build from nothing. *)
Lemma upserts_split (xs l : list R) :
  upserts conflict xs l = filter (untouched conflict xs) l ++ upserts conflict xs [].
Proof.
  revert l. induction xs as [|x xs IH]; intro l.
  - simpl. rewrite filter_untouched_nil, app_nil_r. reflexivity.
  - unfold upserts in *. simpl.
    rewrite (IH (upsert conflict l x)), (IH (upsert conflict [] x)).
    unfold upsert. simpl. rewrite filter_app, filter_untouched_cons.
    rewrite <- app_assoc. reflexivity.
Qed.

Lemma upserts_In (xs l : list R) (y : R) :
  In y (upserts conflict xs l) -> In y l \/ In y xs.
Proof.
  revert l. induction xs as [|x xs IH]; intros l H.
  - left. exact H.
  - unfold upserts in *. simpl in H. apply IH in H.
    destruct H as [H|H]; [|right; right; exact H].
    unfold upsert in H. apply in_app_iff in H. destruct H as [H|H].
    + left. apply filter_In in H. tauto.
    + right. left. destruct H as [H|[]]. exact H.
Qed.

Lemma upserts_nil_touched (xs : list R) :
  filter (untouched conflict xs) (upserts conflict xs []) = [].
Proof.
  assert (H : forall l, (forall y, In y l -> In y xs) ->
                        filter (untouched conflict xs) l = []).
  { induction l as [|y l IH]; intro Hl; [reflexivity|].
    simpl. assert (E : untouched conflict xs y = false).
    { unfold untouched. apply negb_false_iff. apply existsb_exists.
      exists y. split; [apply Hl; left; reflexivity | apply conflict_refl]. }
    rewrite E. apply IH. intros z Hz. apply Hl. right. exact Hz. }
  apply H. intros y Hy. apply upserts_In in Hy. destruct Hy as [[]|Hy]. exact Hy.
Qed.

Lemma filter_idem (p : R -> bool) (l : list R) :
  filter p (filter p l) = filter p l.
Proof.
  induction l as [|y l IH]; [reflexivity|].
  simpl. destruct (p y) eqn:E; simpl; rewrite ?E, IH; reflexivity.
Qed.

(** Running the same statements again leaves the columns as they are. *)
Lemma upserts_idempotent (xs l : list R) :
  upserts conflict xs (upserts conflict xs l) = upserts conflict xs l.
Proof.
  rewrite (upserts_split xs (upserts conflict xs l)).
  rewrite (upserts_split xs l) at 1.
  rewrite filter_app, filter_idem, upserts_nil_touched, app_nil_r.
  symmetry. apply upserts_split.
Qed.

Lemma upserts_snoc (xs : list R) (z : R) (l : list R) :
  upserts conflict (xs ++ [z]) l = upsert conflict (upserts conflict xs l) z.
Proof. unfold upserts. rewrite fold_left_app. reflexivity. Qed.

Lemma filter_conflict_removed (x z : R) (l : list R) :
  conflict z x = true ->
  filter (fun r => conflict r x) (filter (fun y => negb (conflict y z)) l) = [].
Proof.
  intro Ezx. induction l as [|r rs IHr]; [reflexivity|].
  simpl. destruct (conflict r z) eqn:Erz; simpl; [exact IHr|].
  assert (Erx : conflict r x = false).
  { apply conflict_false. apply conflict_false in Erz.
    apply conflict_spec in Ezx. congruence. }
  rewrite Erx. exact IHr.
Qed.

Lemma filter_conflict_kept (x z : R) (l : list R) :
  conflict z x = false ->
  filter (fun r => conflict r x) (filter (fun y => negb (conflict y z)) l) =
  filter (fun r => conflict r x) l.
Proof.
  intro Ezx. induction l as [|r rs IHr]; [reflexivity|].
  simpl. destruct (conflict r z) eqn:Erz; simpl.
  - assert (Erx : conflict r x = false).
    { apply conflict_false. apply conflict_false in Ezx.
      apply conflict_spec in Erz. congruence. }
    rewrite Erx. exact IHr.
  - destruct (conflict r x); rewrite IHr; reflexivity.
Qed.

(** After the statements, each of their keys has exactly one row, and it
    is the row of a statement with that key. *)
Lemma upserts_one_row (xs l : list R) (x : R) :
  In x xs ->
  exists y, In y xs /\ key y = key x /\
            filter (fun r => conflict r x) (upserts conflict xs l) = [y].
Proof.
  revert x. induction xs as [|z xs IH] using rev_ind; intros x Hx; [destruct Hx|].
  rewrite upserts_snoc. unfold upsert. rewrite filter_app. simpl.
  destruct (conflict z x) eqn:Ezx.
  - exists z. split; [apply in_app_iff; right; left; reflexivity|].
    split; [apply conflict_spec; exact Ezx|].
    rewrite filter_conflict_removed by exact Ezx. reflexivity.
  - apply in_app_iff in Hx. destruct Hx as [Hx|[Hx|[]]].
    2:{ subst z. rewrite conflict_refl in Ezx. discriminate. }
    destruct (IH x Hx) as [y [Hy [Hk Hf]]].
    exists y. split; [apply in_app_iff; left; exact Hy|]. split; [exact Hk|].
    rewrite app_nil_r, filter_conflict_kept by exact Ezx. exact Hf.
Qed.

End Upsert.

(* ================================================================= *)
(** ** The impact-score pass over the store *)

Section ImpactPass.

Local Open Scope Q_scope.

Lemma impact_conflict_spec (a b : ImpactScores.row) :
  ImpactScores.conflict a b = true <-> impact_key a = impact_key b.
Proof.
  unfold ImpactScores.conflict, impact_key.
  rewrite andb_true_iff, !Z.eqb_eq. split.
  - intros [H1 H2]. rewrite H1, H2. reflexivity.
  - intro H. injection H. auto.
Qed.

Lemma impact_key_row (p : Pair.row) :
  impact_key (impact_score_row p) = pair_key p.
Proof. reflexivity. Qed.

Lemma map_snd_filter {R : Type} (p : R -> bool) (l : list (Z * R)) :
  map snd (filter (fun x => p (snd x)) l) = filter p (map snd l).
Proof.
  induction l as [|x l IH]; [reflexivity|].
  simpl. destruct (p (snd x)); simpl; rewrite IH; reflexivity.
Qed.

Lemma columns_insert_or_replace {R : Type} (conflict : R -> R -> bool)
    (r : R) (t : Sql.table R) :
  columns (Sql.insert_or_replace conflict r t) = upsert conflict (columns t) r.
Proof.
  unfold columns, Sql.insert_or_replace, Sql.insert, upsert. simpl.
  rewrite map_app. simpl.
  rewrite (map_snd_filter (fun y => negb (conflict y r))). reflexivity.
Qed.

Lemma calculate_impact_scores_unfold (db : database) :
  calculate_impact_scores db = write_impact_scores (select_pairs db) db.
Proof. reflexivity. Qed.

(** The loop writes to [impact_scores] only. *)
Lemma write_impact_scores_frame (pairs : list Pair.row) (db : database) :
  candidates (write_impact_scores pairs db) = candidates db /\
  races (write_impact_scores pairs db) = races db /\
  race_candidates (write_impact_scores pairs db) = race_candidates db /\
  issues (write_impact_scores pairs db) = issues db /\
  candidate_issues (write_impact_scores pairs db) = candidate_issues db /\
  campaign_finance (write_impact_scores pairs db) = campaign_finance db.
Proof.
  revert db. induction pairs as [|p pairs IH]; intro db.
  - repeat split.
  - unfold write_impact_scores in *. simpl.
    match goal with
    | |- context [fold_left ?f pairs ?d] => destruct (IH d) as (H1&H2&H3&H4&H5&H6)
    end.
    rewrite H1, H2, H3, H4, H5, H6. repeat split.
Qed.

Lemma write_impact_scores_columns (pairs : list Pair.row) (db : database) :
  columns (impact_scores (write_impact_scores pairs db)) =
  upserts ImpactScores.conflict (map impact_score_row pairs)
          (columns (impact_scores db)).
Proof.
  revert db. induction pairs as [|p pairs IH]; intro db; [reflexivity|].
  unfold write_impact_scores in *. simpl.
  match goal with
  | |- context [fold_left ?f pairs ?d] => rewrite (IH d)
  end.
  simpl. rewrite columns_insert_or_replace. reflexivity.
Qed.

(** The query reads the links, the candidates and the finance rows only. *)
Lemma select_pairs_ext (db db' : database) :
  candidates db' = candidates db ->
  race_candidates db' = race_candidates db ->
  campaign_finance db' = campaign_finance db ->
  select_pairs db' = select_pairs db.
Proof.
  intros H1 H2 H3. unfold select_pairs. rewrite H1, H2, H3. reflexivity.
Qed.

Lemma select_pairs_calculate (db : database) :
  select_pairs (calculate_impact_scores db) = select_pairs db.
Proof.
  rewrite calculate_impact_scores_unfold.
  destruct (write_impact_scores_frame (select_pairs db) db)
    as (H1&_&H3&_&_&H6).
  apply select_pairs_ext; assumption.
Qed.

(** Every row of the table after the pass is an old row or the row of a
    selected pair. *)
Lemma calculate_impact_scores_rows (db : database) (r : ImpactScores.row) :
  In r (columns (impact_scores (calculate_impact_scores db))) ->
  In r (columns (impact_scores db)) \/
  exists pair, In pair (select_pairs db) /\ r = impact_score_row pair.
Proof.
  rewrite calculate_impact_scores_unfold, write_impact_scores_columns.
  intro H. apply upserts_In in H. destruct H as [H|H]; [left; exact H|].
  right. apply in_map_iff in H. destruct H as [p [Hp Hin]].
  exists p. split; [exact Hin | symmetry; exact Hp].
Qed.

(** Every selected pair has exactly one row after the pass, and it is the
    row of a selected pair with the same candidate and race. *)
Lemma calculate_impact_scores_one_row (db : database) (pair : Pair.row) :
  In pair (select_pairs db) ->
  exists pair',
    In pair' (select_pairs db) /\ pair_key pair' = pair_key pair /\
    filter (fun r => ImpactScores.conflict r (impact_score_row pair))
           (columns (impact_scores (calculate_impact_scores db))) =
    [impact_score_row pair'].
Proof.
  intro Hin.
  rewrite calculate_impact_scores_unfold, write_impact_scores_columns.
  destruct (@upserts_one_row _ _ impact_key ImpactScores.conflict
              impact_conflict_spec
              (map impact_score_row (select_pairs db))
              (columns (impact_scores db)) (impact_score_row pair))
    as [y [Hy [Hk Hf]]].
  { apply in_map. exact Hin. }
  apply in_map_iff in Hy. destruct Hy as [p' [Hp' Hin']]. subst y.
  exists p'. split; [exact Hin'|]. split; [exact Hk | exact Hf].
Qed.

End ImpactPass.

(* ================================================================= *)
(** ** The rows the impact-score pass writes *)

Section ImpactRows.

Local Open Scope Q_scope.
Local Open Scope num_scope.

Lemma impact_score_row_tier (pair : Pair.row) :
  ImpactScores.recommendation_tier (impact_score_row pair) =
  tier_of (ImpactScores.overall_impact_score (impact_score_row pair)).
Proof. reflexivity. Qed.

Lemma geb_iff (x y : Q) : (x >=? y) = true <-> y <= x.
Proof. unfold PyNum.geb. apply PyNumFacts.leb_iff. Qed.

Lemma geb_false_iff (x y : Q) : (x >=? y) = false <-> x < y.
Proof. unfold PyNum.geb. apply PyNumFacts.leb_false_iff. Qed.

Lemma tier_of_thresholds (s : Q) :
  (75 <= s -> tier_of s = "High Impact"%string) /\
  (60 <= s -> s < 75 -> tier_of s = "Medium-High Impact"%string) /\
  (45 <= s -> s < 60 -> tier_of s = "Medium Impact"%string) /\
  (s < 45 -> tier_of s = "Lower Priority"%string).
Proof.
  unfold tier_of.
  destruct (s >=? 75) eqn:E1;
    [apply geb_iff in E1 | apply geb_false_iff in E1];
  (destruct (s >=? 60) eqn:E2;
    [apply geb_iff in E2 | apply geb_false_iff in E2]);
  (destruct (s >=? 45) eqn:E3;
    [apply geb_iff in E3 | apply geb_false_iff in E3]);
  repeat split; intros; try reflexivity; exfalso; lra.
Qed.

Lemma tier_of_compat (s1 s2 : Q) : s1 == s2 -> tier_of s1 = tier_of s2.
Proof.
  intro H.
  assert (Hc : forall c, (s1 >=? c) = (s2 >=? c)).
  { intro c. destruct (s1 >=? c) eqn:E1; destruct (s2 >=? c) eqn:E2;
      try reflexivity; exfalso;
      first [apply geb_iff in E1 | apply geb_false_iff in E1];
      first [apply geb_iff in E2 | apply geb_false_iff in E2]; lra. }
  unfold tier_of. rewrite !Hc. reflexivity.
Qed.

(** A default replaces an unknown or zero figure and keeps the range. *)
Lemma or_default_range (v : option Q) (d lo hi : Q) :
  lo <= d -> d <= hi ->
  (forall x, v = Some x -> lo <= x /\ x <= hi) ->
  lo <= PyNum.or_default v d /\ PyNum.or_default v d <= hi.
Proof.
  intros Hlo Hhi Hv. unfold PyNum.or_default.
  destruct v as [x|]; [|split; assumption].
  destruct (PyNum.truthy x); [apply Hv; reflexivity | split; assumption].
Qed.

Lemma or_default_lower (v : option Q) (d lo : Q) :
  lo <= d ->
  (forall x, v = Some x -> lo <= x) ->
  lo <= PyNum.or_default v d.
Proof.
  intros Hlo Hv. unfold PyNum.or_default.
  destruct v as [x|]; [|assumption].
  destruct (PyNum.truthy x); [apply Hv; reflexivity | assumption].
Qed.

Lemma or_default_known (x d : Q) :
  ~ x == 0 -> PyNum.or_default (Some x) d = x.
Proof.
  intro H. unfold PyNum.or_default.
  destruct (PyNum.truthy x) eqn:E; [reflexivity|].
  apply PyNumFacts.truthy_false_iff in E. contradiction.
Qed.

Lemma impact_score_row_in_range (pair : Pair.row) :
  (forall l, Pair.donation_leverage_score pair = Some l -> 0 <= l /\ l <= 100) ->
  (forall s, Pair.small_dollar_percentage pair = Some s -> 0 <= s) ->
  scores_in_range (impact_score_row pair).
Proof.
  intros Hl Hs. unfold scores_in_range, impact_score_row.
  cbn [ImpactScores.competitiveness_score ImpactScores.funding_leverage_score
       ImpactScores.control_impact_score ImpactScores.grassroots_potential_score
       ImpactScores.overall_impact_score].
  pose proof (@or_default_range (Pair.donation_leverage_score pair) 50 0 100
                ltac:(lra) ltac:(lra) Hl) as [Hl0 Hl1].
  pose proof (@or_default_lower (Pair.small_dollar_percentage pair) 30 0
                ltac:(lra) Hs) as Hs0.
  set (lev := PyNum.or_default (Pair.donation_leverage_score pair) 50) in *.
  set (sdp := PyNum.or_default (Pair.small_dollar_percentage pair) 30) in *.
  assert (Hg0 : 0 <= PyNum.min 100 (sdp * 2)).
  { apply PyNumFacts.min_lower; lra. }
  assert (Hg1 : PyNum.min 100 (sdp * 2) <= 100) by apply PyNumFacts.min_upper.
  set (g := PyNum.min 100 (sdp * 2)) in *.
  destruct (Pair.incumbent pair); cbn [negb]; repeat split; lra.
Qed.

(** Where the figures of a selected pair come from: a finance row of the
    candidate, or NULLs when the candidate has none. *)
Lemma select_pairs_finance (db : database) (pair : Pair.row) :
  In pair (select_pairs db) ->
  ((forall cf, In cf (columns (campaign_finance db)) ->
               CampaignFinance.candidate_id cf <> Pair.candidate_id pair) /\
   Pair.donation_leverage_score pair = None /\
   Pair.small_dollar_percentage pair = None) \/
  (exists cf, In cf (columns (campaign_finance db)) /\
              CampaignFinance.candidate_id cf = Pair.candidate_id pair /\
              Pair.donation_leverage_score pair =
                CampaignFinance.donation_leverage_score cf /\
              Pair.small_dollar_percentage pair =
                CampaignFinance.small_dollar_percentage cf).
Proof.
  unfold select_pairs. intro H.
  apply in_flat_map in H. destruct H as [rc [_ H]].
  apply in_flat_map in H. destruct H as [c [_ H]].
  destruct (RaceCandidates.candidate_id (snd rc) =? fst c)%Z eqn:E; [|destruct H].
  apply Z.eqb_eq in E.
  destruct (filter
              (fun cf => (fst c =? CampaignFinance.candidate_id (snd cf))%Z)
              (Sql.rows (campaign_finance db))) as [|cf0 cfs] eqn:Ef.
  - destruct H as [H|[]]. subst pair. left. simpl.
    split; [|split; reflexivity].
    intros cf Hcf Heq. unfold columns in Hcf. apply in_map_iff in Hcf.
    destruct Hcf as [x [Hx Hin]].
    assert (Hf : In x (filter
              (fun cf => (fst c =? CampaignFinance.candidate_id (snd cf))%Z)
              (Sql.rows (campaign_finance db)))).
    { apply filter_In. split; [exact Hin|]. apply Z.eqb_eq. subst cf. lia. }
    rewrite Ef in Hf. destruct Hf.
  - right. apply in_map_iff in H. destruct H as [cf [Hp Hin]].
    rewrite <- Ef in Hin. apply filter_In in Hin. destruct Hin as [Hin Hc].
    apply Z.eqb_eq in Hc. exists (snd cf). subst pair. simpl.
    split; [unfold columns; apply in_map; exact Hin|].
    split; [lia|]. split; reflexivity.
Qed.

End ImpactRows.

(* ================================================================= *)
(** ** Claims on the impact scores *)

Section ImpactClaims.

Local Open Scope Q_scope.
Local Open Scope num_scope.



(** C3 as stated fails: for a candidate without a finance record the
    small-dollar share is unknown, and the grassroots score written is 60,
    not [min(100, 0 * 2)]. *)
Lemma C3_grassroots_counterexample :
  select_pairs Sample.store_without_finance = [Pair.Row 1 1 None None false] /\
  Sql.rows (campaign_finance Sample.store_without_finance) = [] /\
  map ImpactScores.grassroots_potential_score
      (columns (impact_scores
                  (calculate_impact_scores Sample.store_without_finance))) =
  [60] /\
  ~ (60 == PyNum.min 100 (0 * 2)).
Proof.
  split; [vm_compute; reflexivity|].
  split; [vm_compute; reflexivity|].
  split; [vm_compute; reflexivity|].
  vm_compute. discriminate.
Qed.

(** C3, amended.  The grassroots score of a pair is
    [min(100, small_dollar_percentage * 2)], where the small-dollar
    percentage is the stored one when it is known and not zero, and is
    taken as 30 when it is unknown: the stored value is NULL, or (for a
    selected pair) the candidate has no finance record. *)
Theorem C3_grassroots_potential (db : database) (pair : Pair.row) :
  (forall v, Pair.small_dollar_percentage pair = Some v -> ~ v == 0 ->
     ImpactScores.grassroots_potential_score (impact_score_row pair) =
     PyNum.min 100 (v * 2)) /\
  (Pair.small_dollar_percentage pair = None ->
     ImpactScores.grassroots_potential_score (impact_score_row pair) =
     PyNum.min 100 (30 * 2)) /\
  (In pair (select_pairs db) ->
   (forall cf, In cf (columns (campaign_finance db)) ->
               CampaignFinance.candidate_id cf <> Pair.candidate_id pair) ->
   Pair.small_dollar_percentage pair = None).
Proof.
  split; [|split].
  - intros v Hv Hnz. unfold impact_score_row.
    cbn [ImpactScores.grassroots_potential_score].
    rewrite Hv, or_default_known by exact Hnz. reflexivity.
  - intro Hv. unfold impact_score_row.
    cbn [ImpactScores.grassroots_potential_score].
    rewrite Hv. reflexivity.
  - intros Hin Hno. apply select_pairs_finance in Hin.
    destruct Hin as [(_&_&H)|[cf (Hcf&Hid&_)]]; [exact H|].
    exfalso. exact (Hno cf Hcf Hid).
Qed.

(** C3 amended, on the sample store (no finance record) and on a pair
    with a stored percentage of 50. *)
Lemma C3_grassroots_potential_witness :
  ImpactScores.grassroots_potential_score
    (impact_score_row (Pair.Row 1 1 None (Some 50) false)) =
  PyNum.min 100 (50 * 2) /\
  Pair.small_dollar_percentage (Pair.Row 1 1 None None false) = None.
Proof.
  split.
  - apply (proj1 (C3_grassroots_potential Sample.store_without_finance
                    (Pair.Row 1 1 None (Some 50) false)) 50).
    + reflexivity.
    + vm_compute. discriminate.
  - apply (proj2 (proj2 (C3_grassroots_potential Sample.store_without_finance
                           (Pair.Row 1 1 None None false)))).
    + vm_compute. left. reflexivity.
    + vm_compute. intros cf [].
Defined.

(** C5.  The tier of a row is decided by its overall score alone, by the
    thresholds 75, 60 and 45 tried from the highest, each closed on its
    lower bound; rows with equal overall scores have equal tiers; a score
    of exactly 75, 60 or 45 gives "High Impact", "Medium-High Impact" or
    "Medium Impact". *)
Theorem C5_recommendation_tier (pair : Pair.row) :
  let r := impact_score_row pair in
  let s := ImpactScores.overall_impact_score r in
  ((75 <= s -> ImpactScores.recommendation_tier r = "High Impact"%string) /\
   (60 <= s -> s < 75 ->
    ImpactScores.recommendation_tier r = "Medium-High Impact"%string) /\
   (45 <= s -> s < 60 ->
    ImpactScores.recommendation_tier r = "Medium Impact"%string) /\
   (s < 45 -> ImpactScores.recommendation_tier r = "Lower Priority"%string)) /\
  ((s == 75 -> ImpactScores.recommendation_tier r = "High Impact"%string) /\
   (s == 60 ->
    ImpactScores.recommendation_tier r = "Medium-High Impact"%string) /\
   (s == 45 -> ImpactScores.recommendation_tier r = "Medium Impact"%string)) /\
  (forall pair',
     ImpactScores.overall_impact_score (impact_score_row pair') == s ->
     ImpactScores.recommendation_tier (impact_score_row pair') =
     ImpactScores.recommendation_tier r).
Proof.
  intros r s. subst r.
  rewrite impact_score_row_tier. fold s.
  destruct (tier_of_thresholds s) as (H1&H2&H3&H4).
  split; [repeat split; assumption|]. split.
  - repeat split; intro E.
    + apply H1. lra.
    + apply H2; lra.
    + apply H3; lra.
  - intros pair' E. rewrite impact_score_row_tier.
    apply tier_of_compat. exact E.
Qed.

(** C5 on a non-incumbent with leverage 80 and small-dollar share 50:
    the overall score 72 lies in [60, 75). *)
Lemma C5_recommendation_tier_witness :
  ImpactScores.recommendation_tier
    (impact_score_row (Pair.Row 1 1 (Some 80) (Some 50) false)) =
  "Medium-High Impact"%string.
Proof.
  apply (proj1 (proj2 (proj1
           (C5_recommendation_tier (Pair.Row 1 1 (Some 80) (Some 50) false))))).
  - vm_compute. discriminate.
  - vm_compute. reflexivity.
Defined.

End ImpactClaims.

(* ================================================================= *)
(** ** Rowids under replace-on-conflict *)

Section Rowids.

Variable R : Type.
Variable conflict : R -> R -> bool.

Lemma max_rowid_In (rs : list (Z * R)) (id : Z) (r : R) :
  In (id, r) rs -> (id <= Sql.max_rowid rs)%Z.
Proof.
  induction rs as [|x rs IH]; intro H; [destruct H|].
  simpl. destruct H as [H|H].
  - subst x. simpl. lia.
  - specialize (IH H). lia.
Qed.

Lemma max_rowid_nonneg (rs : list (Z * R)) : (0 <= Sql.max_rowid rs)%Z.
Proof. induction rs as [|x rs IH]; simpl; lia. Qed.

Lemma max_rowid_app (rs1 rs2 : list (Z * R)) :
  Sql.max_rowid (rs1 ++ rs2) =
  Z.max (Sql.max_rowid rs1) (Sql.max_rowid rs2).
Proof.
  induction rs1 as [|x rs1 IH]; simpl.
  - pose proof (max_rowid_nonneg rs2). lia.
  - rewrite IH. lia.
Qed.

(** A row of the table after one statement is an old row the statement
    does not conflict with, or the new row, whose rowid is above the
    sequence. *)
Lemma insert_or_replace_rows (x : R) (t : Sql.table R) (id : Z) (r : R) :
  In (id, r) (Sql.rows (Sql.insert_or_replace conflict x t)) ->
  (In (id, r) (Sql.rows t) /\ conflict r x = false) \/
  (r = x /\ (Sql.sequence t < id)%Z).
Proof.
  unfold Sql.insert_or_replace, Sql.insert. simpl.
  intro H. apply in_app_iff in H. destruct H as [H|[H|[]]].
  - left. apply filter_In in H. simpl in H.
    destruct H as [H1 H2]. apply negb_true_iff in H2. auto.
  - right. injection H as Hid Hr. split; [symmetry; exact Hr|].
    subst id. unfold Sql.next_rowid. simpl. lia.
Qed.

Lemma insert_or_replace_sequence (x : R) (t : Sql.table R) :
  (Sql.sequence t < Sql.sequence (Sql.insert_or_replace conflict x t))%Z.
Proof.
  unfold Sql.insert_or_replace, Sql.insert, Sql.next_rowid. simpl. lia.
Qed.

Lemma insert_or_replace_consistent (x : R) (t : Sql.table R) :
  consistent (Sql.insert_or_replace conflict x t).
Proof.
  unfold consistent, Sql.insert_or_replace, Sql.insert, Sql.next_rowid.
  simpl. rewrite max_rowid_app. simpl.
  pose proof (max_rowid_nonneg
                (filter (fun y => negb (conflict (snd y) x)) (Sql.rows t))).
  lia.
Qed.

Lemma replace_all_sequence (xs : list R) (t : Sql.table R) :
  (Sql.sequence t <= Sql.sequence (replace_all conflict xs t))%Z.
Proof.
  revert t. induction xs as [|x xs IH]; intro t; simpl; [lia|].
  specialize (IH (Sql.insert_or_replace conflict x t)).
  pose proof (insert_or_replace_sequence x t).
  unfold replace_all in *. lia.
Qed.

Lemma replace_all_consistent (xs : list R) (t : Sql.table R) :
  xs <> [] -> consistent (replace_all conflict xs t).
Proof.
  intro Hne. destruct xs as [|z xs] using rev_ind; [contradiction|].
  unfold replace_all. rewrite fold_left_app. simpl.
  apply insert_or_replace_consistent.
Qed.

(** A row of the table after the statements is an old row none of them
    conflicts with, or the row of a statement, with a rowid above the
    sequence before the statements. *)
Lemma replace_all_rows (xs : list R) (t : Sql.table R) (id : Z) (r : R) :
  In (id, r) (Sql.rows (replace_all conflict xs t)) ->
  (In (id, r) (Sql.rows t) /\ untouched conflict xs r = true) \/
  (In r xs /\ (Sql.sequence t < id)%Z).
Proof.
  revert t. induction xs as [|x xs IH]; intros t H.
  - left. split; [exact H | reflexivity].
  - unfold replace_all in *. simpl in H. apply IH in H.
    destruct H as [[H Hu]|[H Hs]].
    + apply insert_or_replace_rows in H. destruct H as [[H Hc]|[Hr Hid]].
      * left. split; [exact H|]. unfold untouched in *. simpl.
        rewrite Hc. exact Hu.
      * right. split; [left; symmetry; exact Hr | exact Hid].
    + right. split; [right; exact H|].
      pose proof (insert_or_replace_sequence x t). lia.
Qed.

End Rowids.

(* ================================================================= *)
(** ** Claims on ranges and on re-running the pass *)

Section RangeAndRerun.

Local Open Scope Q_scope.

Lemma write_impact_scores_table (pairs : list Pair.row) (db : database) :
  impact_scores (write_impact_scores pairs db) =
  replace_all ImpactScores.conflict (map impact_score_row pairs)
              (impact_scores db).
Proof.
  revert db. induction pairs as [|p pairs IH]; intro db; [reflexivity|].
  unfold write_impact_scores in *. simpl.
  match goal with
  | |- context [fold_left ?f pairs ?d] => rewrite (IH d)
  end.
  reflexivity.
Qed.

(** C6.  For positive receipts and a competitiveness in [0, 100] the
    leverage score returned is in [0, 100]; and when every stored leverage
    score is in [0, 100] and every stored small-dollar percentage is
    non-negative, the four component scores and the overall score of
    every row the pass writes are in [0, 100], so that every row of the
    table after the pass is a row it had before or has its scores in
    range. *)
Theorem C6_scores_in_range :
  (forall R O C : Q,
     0 < R -> 0 < O -> 0 <= C -> C <= 100 ->
     exists v, Py.returned (calculate_leverage_score R O C) = Some v /\
               0 <= v /\ v <= 100) /\
  (forall db : database,
     (forall cf, In cf (columns (campaign_finance db)) ->
        (forall l, CampaignFinance.donation_leverage_score cf = Some l ->
                   0 <= l /\ l <= 100) /\
        (forall s, CampaignFinance.small_dollar_percentage cf = Some s ->
                   0 <= s)) ->
     (forall pair, In pair (select_pairs db) ->
                   scores_in_range (impact_score_row pair)) /\
     (forall r, In r (columns (impact_scores (calculate_impact_scores db))) ->
                In r (columns (impact_scores db)) \/ scores_in_range r)).
Proof.
  split.
  - intros R O C HR HO _ _.
    rewrite calculate_leverage_score_computed by assumption.
    eexists. split; [reflexivity|]. apply leverage_formula_bounds.
  - intros db Hfin.
    assert (Hpairs : forall pair, In pair (select_pairs db) ->
                                  scores_in_range (impact_score_row pair)).
    { intros pair Hin. apply select_pairs_finance in Hin.
      apply impact_score_row_in_range.
      - destruct Hin as [(_&E&_)|[cf (Hcf&_&E&_)]]; intros l Hl.
        + rewrite E in Hl. discriminate.
        + rewrite E in Hl. exact (proj1 (Hfin cf Hcf) l Hl).
      - destruct Hin as [(_&_&E)|[cf (Hcf&_&_&E)]]; intros s Hs.
        + rewrite E in Hs. discriminate.
        + rewrite E in Hs. exact (proj2 (Hfin cf Hcf) s Hs). }
    split; [exact Hpairs|].
    intros r Hr. apply calculate_impact_scores_rows in Hr.
    destruct Hr as [Hr|[pair [Hin Hr]]]; [left; exact Hr|].
    right. subst r. apply Hpairs. exact Hin.
Qed.

(** C6 at the receipts (100, 1000) with competitiveness 50, and on the
    sample store with a finance row. *)
Lemma C6_scores_in_range_witness :
  (exists v, Py.returned (calculate_leverage_score 100 1000 50) = Some v /\
             0 <= v /\ v <= 100) /\
  (forall pair, In pair (select_pairs Sample.store_with_finance) ->
                scores_in_range (impact_score_row pair)).
Proof.
  split.
  - apply (proj1 C6_scores_in_range 100 1000 50); vm_compute;
      first [reflexivity | discriminate].
  - apply (proj2 C6_scores_in_range Sample.store_with_finance).
    vm_compute. intros cf [<-|[]]. split.
    + intros l E. injection E as <-. split; vm_compute; discriminate.
    + intros s E. injection E as <-. vm_compute. discriminate.
Defined.

(** C8 as stated fails: the pass replaces a row by a row with another
    rowid, so the stored [id] of the row is not the one it had. *)
Lemma C8_rerun_counterexample :
  let db1 := calculate_impact_scores Sample.store_without_finance in
  let db2 := calculate_impact_scores db1 in
  select_pairs db1 = select_pairs Sample.store_without_finance /\
  map fst (Sql.rows (impact_scores db1)) = [1%Z] /\
  map fst (Sql.rows (impact_scores db2)) = [2%Z] /\
  Sql.rows (impact_scores db2) <> Sql.rows (impact_scores db1).
Proof.
  split; [vm_compute; reflexivity|].
  split; [vm_compute; reflexivity|].
  split; [vm_compute; reflexivity|].
  vm_compute. intro H. discriminate H.
Qed.

(** C8, amended.  Running the pass again on unchanged candidates, links
    and finance rows leaves the other tables as they are and gives rows
    with the same columns (candidate, race, the four component scores,
    the overall score, the tier) in the same order; every processed pair
    has exactly one row after either run, replaced and not accumulated;
    the rowid is not kept: the row of a processed pair after the second
    run has a rowid greater than every rowid of the table before it. *)
Theorem C8_rerun_same_columns (db : database) :
  let db1 := calculate_impact_scores db in
  let db2 := calculate_impact_scores db1 in
  columns (impact_scores db2) = columns (impact_scores db1) /\
  (candidates db2 = candidates db /\ race_candidates db2 = race_candidates db /\
   campaign_finance db2 = campaign_finance db) /\
  (forall pair, In pair (select_pairs db) ->
     exists pair',
       In pair' (select_pairs db) /\ pair_key pair' = pair_key pair /\
       filter (fun r => ImpactScores.conflict r (impact_score_row pair))
              (columns (impact_scores db1)) = [impact_score_row pair'] /\
       filter (fun r => ImpactScores.conflict r (impact_score_row pair))
              (columns (impact_scores db2)) = [impact_score_row pair']) /\
  (forall pair id1 r1 id2 r2,
     In pair (select_pairs db) ->
     In (id1, r1) (Sql.rows (impact_scores db1)) ->
     In (id2, r2) (Sql.rows (impact_scores db2)) ->
     ImpactScores.conflict r2 (impact_score_row pair) = true ->
     (id1 < id2)%Z).
Proof.
  intros db1 db2.
  assert (Hsel : select_pairs db1 = select_pairs db)
    by apply select_pairs_calculate.
  assert (Hcols : columns (impact_scores db2) = columns (impact_scores db1)).
  { unfold db2. rewrite calculate_impact_scores_unfold, Hsel.
    rewrite write_impact_scores_columns.
    unfold db1. rewrite calculate_impact_scores_unfold.
    rewrite write_impact_scores_columns.
    apply (@upserts_idempotent _ _ impact_key ImpactScores.conflict
             impact_conflict_spec). }
  split; [exact Hcols|]. split; [|split].
  - unfold db2, db1. rewrite !calculate_impact_scores_unfold.
    destruct (write_impact_scores_frame
                (select_pairs (write_impact_scores (select_pairs db) db))
                (write_impact_scores (select_pairs db) db))
      as (H1&_&H3&_&_&H6).
    destruct (write_impact_scores_frame (select_pairs db) db)
      as (G1&_&G3&_&_&G6).
    rewrite H1, H3, H6. auto.
  - intros pair Hin.
    destruct (calculate_impact_scores_one_row db pair Hin)
      as [pair' (Hin'&Hk&Hf)].
    exists pair'. rewrite Hcols. auto.
  - intros pair id1 r1 id2 r2 Hin H1 H2 Hc.
    assert (Hne : map impact_score_row (select_pairs db) <> []).
    { destruct (select_pairs db); [destruct Hin | discriminate]. }
    assert (Hcons : consistent (impact_scores db1)).
    { unfold db1. rewrite calculate_impact_scores_unfold.
      rewrite write_impact_scores_table.
      apply replace_all_consistent. exact Hne. }
    unfold db2 in H2.
    rewrite calculate_impact_scores_unfold, Hsel in H2.
    rewrite write_impact_scores_table in H2.
    apply replace_all_rows in H2. destruct H2 as [[_ Hu]|[_ Hlt]].
    + exfalso. unfold untouched in Hu. apply negb_true_iff in Hu.
      assert (Ht : existsb (ImpactScores.conflict r2)
                     (map impact_score_row (select_pairs db)) = true).
      { apply existsb_exists. exists (impact_score_row pair).
        split; [apply in_map; exact Hin | exact Hc]. }
      congruence.
    + apply max_rowid_In in H1. unfold consistent in Hcons. lia.
Qed.

(** C8 amended, on the sample store. *)
Lemma C8_rerun_same_columns_witness :
  exists pair',
    In pair' (select_pairs Sample.store_without_finance) /\
    pair_key pair' = pair_key (Pair.Row 1 1 None None false) /\
    filter
      (fun r => ImpactScores.conflict r
                  (impact_score_row (Pair.Row 1 1 None None false)))
      (columns (impact_scores
                  (calculate_impact_scores Sample.store_without_finance))) =
    [impact_score_row pair'] /\
    filter
      (fun r => ImpactScores.conflict r
                  (impact_score_row (Pair.Row 1 1 None None false)))
      (columns (impact_scores
                  (calculate_impact_scores
                     (calculate_impact_scores Sample.store_without_finance)))) =
    [impact_score_row pair'].
Proof.
  apply (proj1 (proj2 (proj2
           (C8_rerun_same_columns Sample.store_without_finance)))).
  vm_compute. left. reflexivity.
Defined.

End RangeAndRerun.

(* ================================================================= *)
(** ** Storing a finance record *)

Section Finance.

Local Open Scope Q_scope.
Local Open Scope num_scope.

Lemma gtb_iff (x y : Q) : (x >? y) = true <-> y < x.
Proof. unfold PyNum.gtb. apply PyNumFacts.ltb_iff. Qed.

Lemma gtb_false_iff (x y : Q) : (x >? y) = false <-> x <= y.
Proof. unfold PyNum.gtb. apply PyNumFacts.ltb_false_iff. Qed.

Lemma opponent_known_iff (opponent_receipts : option Q) :
  opponent_known opponent_receipts = true <->
  exists o, opponent_receipts = Some o /\ 0 < o.
Proof.
  unfold opponent_known. destruct opponent_receipts as [o|].
  - rewrite andb_true_iff, gtb_iff. split.
    + intros [_ H]. exists o. auto.
    + intros [o' [E H]]. injection E as <-. split; [|exact H].
      destruct (PyNum.truthy o) eqn:Et; [reflexivity|].
      apply PyNumFacts.truthy_false_iff in Et. lra.
  - split; [discriminate | intros [o [E _]]; discriminate].
Qed.

(** The run of the small-dollar block. *)
Lemma small_dollar_block (receipts individual_contribs : Q) :
  (if (receipts >? 0) && (individual_contribs >? 0) then
     Py.bind (Py.truediv individual_contribs receipts)
             (fun q => Py.ret (q * 100))
   else Py.ret 0) =
  if (receipts >? 0) && (individual_contribs >? 0) then
    Py.Run [Py.Divide receipts]
           (Py.Return (individual_contribs / receipts * 100))
  else Py.Run [] (Py.Return 0).
Proof.
  destruct ((receipts >? 0) && (individual_contribs >? 0)) eqn:E;
    [|reflexivity].
  apply andb_true_iff in E. destruct E as [E _]. apply gtb_iff in E.
  rewrite truediv_nonzero by lra. reflexivity.
Qed.

End Finance.

Section FinanceRun.

Local Open Scope Q_scope.
Local Open Scope num_scope.

(** The body of the [try] returns, with the row stored. *)
Lemma insert_campaign_finance_body_run (candidate_id : Z)
    (financial_data : Fec.totals) (opponent_receipts : option Q)
    (db : database) :
  insert_campaign_finance_body candidate_id financial_data opponent_receipts db =
  Py.Run (finance_trace financial_data opponent_receipts)
    (Py.Return
       (set_campaign_finance
          (Sql.insert (finance_row candidate_id financial_data opponent_receipts)
                      (campaign_finance db))
          db)).
Proof.
  unfold insert_campaign_finance_body.
  fold (receipts_of financial_data).
  fold (individual_contribs_of financial_data).
  rewrite small_dollar_block.
  unfold finance_trace, finance_row, small_dollar_of, derived_columns.
  set (receipts := receipts_of financial_data).
  set (indiv := individual_contribs_of financial_data).
  destruct opponent_receipts as [o|].
  - destruct (opponent_known (Some o)) eqn:Ek.
    + pose proof Ek as Ek'. apply opponent_known_iff in Ek'.
      destruct Ek' as [o' [E Ho]]. injection E as <-.
      unfold opponent_known in Ek. rewrite Ek.
      assert (Eg : (o >? 0) = true) by (apply gtb_iff; exact Ho).
      rewrite Eg. rewrite (truediv_nonzero receipts) by lra.
      destruct (receipts >? 0) eqn:Er.
      * apply gtb_iff in Er.
        rewrite calculate_leverage_score_computed by assumption.
        destruct (indiv >? 0); reflexivity.
      * apply gtb_false_iff in Er.
        rewrite calculate_leverage_score_default by (left; exact Er).
        reflexivity.
    + unfold opponent_known in Ek. rewrite Ek.
      destruct ((receipts >? 0) && (indiv >? 0)); reflexivity.
  - destruct ((receipts >? 0) && (indiv >? 0)); reflexivity.
Qed.

End FinanceRun.

Section FinanceClaims.

Local Open Scope Q_scope.
Local Open Scope num_scope.

(** The [except] branch is never taken: the function stores the row. *)
Lemma insert_campaign_finance_run (candidate_id : Z)
    (financial_data : Fec.totals) (opponent_receipts : option Q)
    (db : database) :
  insert_campaign_finance candidate_id financial_data opponent_receipts db =
  (finance_trace financial_data opponent_receipts,
   set_campaign_finance
     (Sql.insert (finance_row candidate_id financial_data opponent_receipts)
                 (campaign_finance db))
     db).
Proof.
  unfold insert_campaign_finance.
  rewrite insert_campaign_finance_body_run. reflexivity.
Qed.

Lemma columns_insert {R : Type} (r : R) (t : Sql.table R) :
  columns (Sql.insert r t) = columns t ++ [r].
Proof. unfold columns, Sql.insert. simpl. rewrite map_app. reflexivity. Qed.

Lemma finance_row_leverage (candidate_id : Z) (financial_data : Fec.totals)
    (opponent_receipts : option Q) :
  CampaignFinance.donation_leverage_score
    (finance_row candidate_id financial_data opponent_receipts) =
  snd (derived_columns (receipts_of financial_data) opponent_receipts).
Proof.
  unfold finance_row.
  destruct (derived_columns (receipts_of financial_data) opponent_receipts)
    as [[g r] l].
  reflexivity.
Qed.

Lemma finance_row_ratio (candidate_id : Z) (financial_data : Fec.totals)
    (opponent_receipts : option Q) :
  CampaignFinance.funding_ratio
    (finance_row candidate_id financial_data opponent_receipts) =
  snd (fst (derived_columns (receipts_of financial_data) opponent_receipts)).
Proof.
  unfold finance_row.
  destruct (derived_columns (receipts_of financial_data) opponent_receipts)
    as [[g r] l].
  reflexivity.
Qed.

Lemma finance_row_gap (candidate_id : Z) (financial_data : Fec.totals)
    (opponent_receipts : option Q) :
  CampaignFinance.funding_gap
    (finance_row candidate_id financial_data opponent_receipts) =
  fst (fst (derived_columns (receipts_of financial_data) opponent_receipts)).
Proof.
  unfold finance_row.
  destruct (derived_columns (receipts_of financial_data) opponent_receipts)
    as [[g r] l].
  reflexivity.
Qed.

Lemma finance_row_small_dollar (candidate_id : Z) (financial_data : Fec.totals)
    (opponent_receipts : option Q) :
  CampaignFinance.small_dollar_percentage
    (finance_row candidate_id financial_data opponent_receipts) =
  Some (small_dollar_of financial_data).
Proof.
  unfold finance_row.
  destruct (derived_columns (receipts_of financial_data) opponent_receipts)
    as [[g r] l].
  reflexivity.
Qed.

Lemma derived_columns_unknown (receipts : Q) (opponent_receipts : option Q) :
  opponent_known opponent_receipts = false ->
  derived_columns receipts opponent_receipts = (None, None, None).
Proof.
  intro H. unfold derived_columns.
  destruct opponent_receipts as [o|]; [rewrite H|]; reflexivity.
Qed.

Lemma derived_columns_known (receipts o : Q) :
  0 < o ->
  derived_columns receipts (Some o) =
  (Some (receipts - o), Some (receipts / o),
   Py.returned (calculate_leverage_score receipts o 50)).
Proof.
  intro Ho. unfold derived_columns.
  assert (Ek : opponent_known (Some o) = true).
  { apply opponent_known_iff. exists o. auto. }
  rewrite Ek. destruct (receipts >? 0) eqn:Er.
  - apply gtb_iff in Er.
    rewrite calculate_leverage_score_computed by assumption. reflexivity.
  - apply gtb_false_iff in Er.
    rewrite calculate_leverage_score_default by (left; exact Er). reflexivity.
Qed.




End FinanceClaims.

Section DivisionClaims.

Local Open Scope Q_scope.
Local Open Scope num_scope.

Lemma finance_trace_denominators (financial_data : Fec.totals)
    (opponent_receipts : option Q) (d : Q) :
  In d (Py.denominators (finance_trace financial_data opponent_receipts)) ->
  0 < d /\ (d = receipts_of financial_data \/ opponent_receipts = Some d).
Proof.
  unfold finance_trace. rewrite PyFacts.denominators_app, in_app_iff.
  intros [H|H].
  - destruct ((receipts_of financial_data >? 0)
              && (individual_contribs_of financial_data >? 0)) eqn:E;
      [|destruct H].
    destruct H as [H|[]]. subst d.
    apply andb_true_iff in E. destruct E as [E _]. apply gtb_iff in E. auto.
  - destruct opponent_receipts as [o|]; [|destruct H].
    destruct (opponent_known (Some o)) eqn:Ek; [|destruct H].
    apply opponent_known_iff in Ek. destruct Ek as [o' [E Ho]].
    injection E as <-.
    assert (Hd : d = o).
    { destruct (receipts_of financial_data >? 0); simpl in H;
        repeat (destruct H as [H|H]; [symmetry; exact H|]); destruct H. }
    subst d. auto.
Qed.

(** C9.  No division of the scoring code has a non-positive denominator,
    and none raises.  [calculate_leverage_score] returns for all
    arguments; it divides (once, by the opponent's receipts) only when
    both receipts are strictly positive and returns the default 50
    without dividing otherwise.  The [try] body of
    [insert_campaign_finance] returns for all arguments, so that the
    [except] branch is not taken; every denominator it divides by is
    strictly positive and is the receipts or the given opponent figure;
    when the receipts are not positive the small-dollar percentage stored
    is the default 0, and when the opponent figure is absent or not
    positive the funding gap, funding ratio and leverage score stored are
    the default NULL. *)
Theorem C9_guarded_divisions :
  (forall R O C : Q,
     Py.raises (calculate_leverage_score R O C) = false /\
     Forall (fun d => 0 < d)
            (Py.denominators (Py.trace (calculate_leverage_score R O C))) /\
     (0 < R -> 0 < O ->
      Py.denominators (Py.trace (calculate_leverage_score R O C)) = [O]) /\
     (R <= 0 \/ O <= 0 ->
      Py.denominators (Py.trace (calculate_leverage_score R O C)) = [] /\
      Py.returned (calculate_leverage_score R O C) = Some 50)) /\
  (forall (candidate_id : Z) (financial_data : Fec.totals)
          (opponent_receipts : option Q) (db : database),
     let body := insert_campaign_finance_body candidate_id financial_data
                   opponent_receipts db in
     Py.raises body = false /\
     Py.returned body =
     Some (snd (insert_campaign_finance candidate_id financial_data
                  opponent_receipts db)) /\
     (forall d, In d (Py.denominators (Py.trace body)) ->
        0 < d /\
        (d = receipts_of financial_data \/ opponent_receipts = Some d)) /\
     exists row,
       Py.returned body =
       Some (set_campaign_finance
               (Sql.insert row (campaign_finance db)) db) /\
       (receipts_of financial_data <= 0 ->
        CampaignFinance.small_dollar_percentage row = Some 0) /\
       ((opponent_receipts = None \/
         exists o, opponent_receipts = Some o /\ o <= 0) ->
        CampaignFinance.funding_gap row = None /\
        CampaignFinance.funding_ratio row = None /\
        CampaignFinance.donation_leverage_score row = None)).
Proof.
  split.
  - intros R O C.
    destruct (Qlt_le_dec 0 R) as [HR|HR]; [destruct (Qlt_le_dec 0 O) as [HO|HO]|].
    + rewrite calculate_leverage_score_computed by assumption. simpl.
      split; [reflexivity|].
      split; [constructor; [exact HO | constructor]|].
      split; [reflexivity|]. intros [H|H]; exfalso; lra.
    + rewrite calculate_leverage_score_default by (right; exact HO). simpl.
      split; [reflexivity|]. split; [constructor|].
      split; [intros; exfalso; lra | auto].
    + rewrite calculate_leverage_score_default by (left; exact HR). simpl.
      split; [reflexivity|]. split; [constructor|].
      split; [intros; exfalso; lra | auto].
  - intros candidate_id financial_data opponent_receipts db body.
    subst body. rewrite insert_campaign_finance_run.
    rewrite insert_campaign_finance_body_run.
    split; [reflexivity|]. split; [reflexivity|].
    split; [apply finance_trace_denominators|].
    eexists. split; [reflexivity|]. split.
    + intro Hr. rewrite finance_row_small_dollar. unfold small_dollar_of.
      assert (E : (receipts_of financial_data >? 0) = false)
        by (apply gtb_false_iff; exact Hr).
      rewrite E. reflexivity.
    + intro H.
      assert (E : opponent_known opponent_receipts = false).
      { destruct (opponent_known opponent_receipts) eqn:Ek; [|reflexivity].
        apply opponent_known_iff in Ek. destruct Ek as [o [Eo Ho]].
        destruct H as [H|[o' [Eo' Ho']]]; [congruence|].
        rewrite Eo in Eo'. injection Eo' as <-. exfalso. lra. }
      rewrite finance_row_gap, finance_row_ratio, finance_row_leverage.
      rewrite derived_columns_unknown by exact E. auto.
Qed.

(** C9 at the leverage arguments (100, 1000, 50) and on the totals with
    zero receipts and a non-positive opponent figure. *)
Lemma C9_guarded_divisions_witness :
  Py.denominators (Py.trace (calculate_leverage_score 100 1000 50)) = [1000] /\
  exists row,
    Py.returned
      (insert_campaign_finance_body 1 zero_receipts (Some 0) empty_database) =
    Some (set_campaign_finance
            (Sql.insert row (campaign_finance empty_database))
            empty_database) /\
    CampaignFinance.small_dollar_percentage row = Some 0 /\
    CampaignFinance.funding_ratio row = None.
Proof.
  split.
  - apply (proj1 (proj2 (proj2 (proj1 C9_guarded_divisions 100 1000 50))));
      reflexivity.
  - destruct (proj2 C9_guarded_divisions 1%Z zero_receipts (Some 0)
                empty_database) as (_&_&_&row&H1&H2&H3).
    exists row. split; [exact H1|]. split.
    + apply H2. vm_compute. discriminate.
    + apply H3. right. exists 0. split; [reflexivity|].
      vm_compute. discriminate.
Defined.

End DivisionClaims.

(* ================================================================= *)
(** ** Issue positions by party *)

Section IssueFacts.

Local Open Scope string_scope.
Local Open Scope list_scope.

Lemma prefix_iff (sub s : string) :
  String.prefix sub s = true <-> exists rest, s = (sub ++ rest)%string.
Proof.
  revert s. induction sub as [|a sub IH]; intro s.
  - split; [intros _; exists s; reflexivity|].
    intros _. destruct s; reflexivity.
  - destruct s as [|b s]; simpl.
    + split; [discriminate | intros [rest H]; discriminate].
    + destruct (ascii_dec a b) as [E|E].
      * subst b. rewrite IH. split; intros [rest H]; exists rest.
        -- rewrite H. reflexivity.
        -- injection H. auto.
      * split; [discriminate|].
        intros [rest H]. injection H. intros _ H'. congruence.
Qed.

(** [contains] is substring containment. *)
Lemma contains_iff (sub s : string) :
  PyStr.contains sub s = true <->
  exists before after, s = (before ++ sub ++ after)%string.
Proof.
  induction s as [|c s IH].
  - cbn [PyStr.contains]. destruct (String.prefix sub "") eqn:E.
    + split; [|reflexivity]. intros _.
      apply prefix_iff in E. destruct E as [rest E].
      exists "", rest. exact E.
    + split; [discriminate|]. intros [before [after H]].
      destruct before; [|discriminate].
      assert (Hp : String.prefix sub "" = true)
        by (apply prefix_iff; exists after; exact H).
      congruence.
  - cbn [PyStr.contains].
    destruct (String.prefix sub (String c s)) eqn:E.
    + split; [|reflexivity]. intros _.
      apply prefix_iff in E. destruct E as [rest E].
      exists "", rest. exact E.
    + rewrite IH. split.
      * intros [before [after H]]. exists (String c before), after.
        rewrite H. reflexivity.
      * intros [before [after H]]. destruct before as [|c' before].
        -- assert (Hp : String.prefix sub (String c s) = true)
             by (apply prefix_iff; exists after; exact H).
           congruence.
        -- injection H. intros H' _. exists before, after. exact H'.
Qed.

Lemma list_in_iff (x : string) (l : list string) :
  PyStr.list_in x l = true <-> In x l.
Proof.
  unfold PyStr.list_in. rewrite existsb_exists. split.
  - intros [y [Hy E]]. apply String.eqb_eq in E. subst y. exact Hy.
  - intro H. exists x. split; [exact H | apply String.eqb_refl].
Qed.

Lemma list_index_nth (x : string) (l : list string) (i : Z) :
  PyStr.list_index x l = Some i ->
  (0 <= i)%Z /\ nth_error l (Z.to_nat i) = Some x /\
  forall j, (j < Z.to_nat i)%nat -> nth_error l j <> Some x.
Proof.
  revert i. induction l as [|y l IH]; intros i H; [discriminate|].
  simpl in H. destruct (String.eqb y x) eqn:E.
  - injection H as <-. apply String.eqb_eq in E. subst y.
    split; [lia|]. split; [reflexivity|]. intros j Hj. simpl in Hj. lia.
  - destruct (PyStr.list_index x l) as [i'|]; [|discriminate].
    injection H as <-. destruct (IH i' eq_refl) as (H0&Hn&Hb).
    split; [lia|]. rewrite Z2Nat.inj_succ by exact H0.
    split; [exact Hn|]. intros [|j] Hj.
    + simpl. intro Heq. injection Heq as Heq.
      apply String.eqb_neq in E. contradiction.
    + simpl. apply Hb. lia.
Qed.

Lemma list_in_index (x : string) (l : list string) :
  PyStr.list_in x l = true -> exists i, PyStr.list_index x l = Some i.
Proof.
  induction l as [|y l IH]; [discriminate|].
  unfold PyStr.list_in in *. simpl.
  rewrite (String.eqb_sym y x).
  destruct (String.eqb x y); simpl; intro H.
  - eexists. reflexivity.
  - destruct (IH H) as [i Hi]. rewrite Hi. eexists. reflexivity.
Qed.

(** An issue of the list gets "Support", "Strong" and its rank; an issue
    outside the list gets nothing. *)
Lemma position_from_spec (issue_name : string) (priorities : list string) :
  (PyStr.list_in issue_name priorities = true ->
   exists k, rank_in priorities issue_name k /\
             position_from issue_name priorities =
             Some ("Support", "Strong", k)) /\
  (PyStr.list_in issue_name priorities = false ->
   position_from issue_name priorities = None).
Proof.
  unfold position_from. split; intro H; rewrite H; [|reflexivity].
  destruct (list_in_index _ _ H) as [i Hi]. rewrite Hi.
  exists (i + 1)%Z. split; [|reflexivity].
  destruct (list_index_nth _ _ Hi) as (H0&Hn&Hb).
  unfold rank_in. replace (i + 1 - 1)%Z with i by lia.
  split; [lia|]. split; assumption.
Qed.

End IssueFacts.

Section IssueAssignment.

Local Open Scope string_scope.
Local Open Scope list_scope.

(** The loop of [assign_candidate_issues] over any list of issues. *)
Lemma assign_loop (candidate_id : Z) (party : string)
    (catalog : list (Z * Issues.row)) (db : database) :
  let db' :=
    fold_left
      (fun db issue =>
         let issue_id := fst issue in
         let issue_name := Issues.name (snd issue) in
         let choice :=
           if PyStr.contains "DEMOCRATIC" (PyStr.upper party) then
             position_from issue_name democratic_priorities
           else if PyStr.contains "REPUBLICAN" (PyStr.upper party) then
             position_from issue_name republican_priorities
           else None in
         match choice with
         | Some (position, strength, priority) =>
             set_candidate_issues
               (Sql.insert_or_ignore CandidateIssues.conflict
                  (CandidateIssues.Row candidate_id issue_id position strength
                     priority)
                  (candidate_issues db))
               db
         | None => db
         end)
      catalog db in
  candidate_issues db' =
  insert_all_or_ignore (issue_statements candidate_id party catalog)
                       (candidate_issues db) /\
  candidates db' = candidates db /\ races db' = races db /\
  race_candidates db' = race_candidates db /\ issues db' = issues db /\
  campaign_finance db' = campaign_finance db /\
  impact_scores db' = impact_scores db.
Proof.
  revert db. induction catalog as [|issue catalog IH]; intro db.
  - simpl. repeat split.
  - cbn [fold_left issue_statements flat_map].
    fold (issue_statements candidate_id party catalog).
    match goal with
    | |- context [fold_left ?f catalog ?d] =>
        destruct (IH d) as (H0&H1&H2&H3&H4&H5&H6)
    end.
    cbv zeta in *. rewrite H0, H1, H2, H3, H4, H5, H6. clear.
    destruct (if PyStr.contains "DEMOCRATIC" (PyStr.upper party)
              then position_from (Issues.name (snd issue)) democratic_priorities
              else if PyStr.contains "REPUBLICAN" (PyStr.upper party)
                   then position_from (Issues.name (snd issue))
                          republican_priorities
                   else None) as [[[p s] k]|]; repeat split.
Qed.

Lemma issue_statements_positions (candidate_id : Z) (party : string)
    (l : list string) (catalog : list (Z * Issues.row)) :
  (forall issue_name,
     (if PyStr.contains "DEMOCRATIC" (PyStr.upper party) then
        position_from issue_name democratic_priorities
      else if PyStr.contains "REPUBLICAN" (PyStr.upper party) then
        position_from issue_name republican_priorities
      else None) = position_from issue_name l) ->
  positions_of candidate_id l catalog
               (issue_statements candidate_id party catalog).
Proof.
  intro Hl. unfold positions_of.
  induction catalog as [|issue catalog IH]; [constructor|].
  cbn [issue_statements flat_map filter].
  fold (issue_statements candidate_id party catalog).
  rewrite Hl.
  destruct (position_from_spec (Issues.name (snd issue)) l) as [Hin Hout].
  destruct (PyStr.list_in (Issues.name (snd issue)) l) eqn:E.
  - destruct (Hin eq_refl) as [k [Hk Hp]]. rewrite Hp. simpl.
    constructor; [|exact IH]. exists k. split; [exact Hk | reflexivity].
  - rewrite (Hout eq_refl). simpl. exact IH.
Qed.

Lemma issue_statements_none (candidate_id : Z) (party : string)
    (catalog : list (Z * Issues.row)) :
  PyStr.contains "DEMOCRATIC" (PyStr.upper party) = false ->
  PyStr.contains "REPUBLICAN" (PyStr.upper party) = false ->
  issue_statements candidate_id party catalog = [].
Proof.
  intros Hd Hr. unfold issue_statements. rewrite Hd, Hr.
  induction catalog as [|issue catalog IH]; [reflexivity | exact IH].
Qed.

Lemma issue_statements_In (candidate_id : Z) (party : string)
    (catalog : list (Z * Issues.row)) (r : CandidateIssues.row) :
  In r (issue_statements candidate_id party catalog) ->
  CandidateIssues.candidate_id r = candidate_id /\
  In (CandidateIssues.issue_id r) (map fst catalog).
Proof.
  unfold issue_statements. intro H. apply in_flat_map in H.
  destruct H as [issue [Hin H]].
  destruct (if PyStr.contains "DEMOCRATIC" (PyStr.upper party)
            then position_from (Issues.name (snd issue)) democratic_priorities
            else if PyStr.contains "REPUBLICAN" (PyStr.upper party)
                 then position_from (Issues.name (snd issue))
                        republican_priorities
                 else None) as [[[p s] k]|]; [|destruct H].
  destruct H as [H|[]]. subst r. simpl.
  split; [reflexivity | apply in_map; exact Hin].
Qed.

Lemma issue_statements_conflict_free (candidate_id : Z) (party : string)
    (catalog : list (Z * Issues.row)) :
  NoDup (map fst catalog) ->
  conflict_free (issue_statements candidate_id party catalog).
Proof.
  induction catalog as [|issue catalog IH]; intro Hnd; [exact I|].
  simpl in Hnd. inversion Hnd as [|x xs Hnotin Hnd']. subst.
  cbn [issue_statements flat_map].
  fold (issue_statements candidate_id party catalog).
  destruct (if PyStr.contains "DEMOCRATIC" (PyStr.upper party)
            then position_from (Issues.name (snd issue)) democratic_priorities
            else if PyStr.contains "REPUBLICAN" (PyStr.upper party)
                 then position_from (Issues.name (snd issue))
                        republican_priorities
                 else None) as [[[p s] k]|]; simpl; [|apply IH; exact Hnd'].
  split; [|apply IH; exact Hnd'].
  intros r' Hr'. apply issue_statements_In in Hr'. destruct Hr' as [_ Hid].
  unfold CandidateIssues.conflict. simpl.
  apply andb_false_iff. right. apply Z.eqb_neq. intro E.
  rewrite <- E in Hid. contradiction.
Qed.

(** Statements that conflict with no stored row and not with each other
    are all inserted, in order. *)
Lemma insert_all_or_ignore_fresh (stmts : list CandidateIssues.row)
    (t : Sql.table CandidateIssues.row) :
  (forall x r, In x (columns t) -> In r stmts ->
               CandidateIssues.conflict x r = false) ->
  conflict_free stmts ->
  columns (insert_all_or_ignore stmts t) = columns t ++ stmts.
Proof.
  revert t. induction stmts as [|r stmts IH]; intros t Hold Hfree.
  - simpl. rewrite app_nil_r. reflexivity.
  - destruct Hfree as [Hr Hfree].
    unfold insert_all_or_ignore in *. cbn [fold_left].
    assert (E : Sql.insert_or_ignore CandidateIssues.conflict r t =
                Sql.insert r t).
    { unfold Sql.insert_or_ignore.
      destruct (existsb (fun x => CandidateIssues.conflict (snd x) r)
                        (Sql.rows t)) eqn:Ex; [|reflexivity].
      apply existsb_exists in Ex. destruct Ex as [x [Hx Hc]].
      rewrite (Hold (snd x) r) in Hc; [discriminate| |left; reflexivity].
      unfold columns. apply in_map. exact Hx. }
    rewrite E, IH.
    + rewrite columns_insert, <- app_assoc. reflexivity.
    + intros x r' Hx Hr'. rewrite columns_insert in Hx.
      apply in_app_iff in Hx. destruct Hx as [Hx|[Hx|[]]].
      * apply Hold; [exact Hx | right; exact Hr'].
      * subst x. apply Hr. exact Hr'.
    + exact Hfree.
Qed.

End IssueAssignment.

Section IssueClaims.

Local Open Scope string_scope.
Local Open Scope list_scope.

Lemma database_ext (db1 db2 : database) :
  candidates db1 = candidates db2 -> races db1 = races db2 ->
  race_candidates db1 = race_candidates db2 -> issues db1 = issues db2 ->
  candidate_issues db1 = candidate_issues db2 ->
  campaign_finance db1 = campaign_finance db2 ->
  impact_scores db1 = impact_scores db2 ->
  db1 = db2.
Proof.
  destruct db1, db2. simpl. intros. subst. reflexivity.
Qed.

Lemma assign_candidate_issues_run (candidate_id : Z) (party : string)
    (db : database) :
  candidate_issues (assign_candidate_issues candidate_id party db) =
  insert_all_or_ignore
    (issue_statements candidate_id party (Sql.rows (issues db)))
    (candidate_issues db) /\
  candidates (assign_candidate_issues candidate_id party db) = candidates db /\
  races (assign_candidate_issues candidate_id party db) = races db /\
  race_candidates (assign_candidate_issues candidate_id party db) =
  race_candidates db /\
  issues (assign_candidate_issues candidate_id party db) = issues db /\
  campaign_finance (assign_candidate_issues candidate_id party db) =
  campaign_finance db /\
  impact_scores (assign_candidate_issues candidate_id party db) =
  impact_scores db.
Proof.
  exact (assign_loop candidate_id party (Sql.rows (issues db)) db).
Qed.

(** C7 as stated fails for a label with both party names: it contains
    "REPUBLICAN" after uppercasing, and the positions inserted are those
    of the Democratic list, not those of the Republican list. *)
Lemma C7_party_issues_counterexample :
  PyStr.contains "REPUBLICAN" (PyStr.upper "Democratic-Republican Party")
  = true /\
  stored_positions
    (assign_candidate_issues 1 "Democratic-Republican Party"
       (seed_issues empty_database)) =
  [(1, 1); (2, 2); (4, 3); (7, 4); (9, 6); (12, 5)]%Z /\
  stored_positions
    (assign_candidate_issues 1 "Republican Party"
       (seed_issues empty_database)) =
  [(3, 2); (4, 3); (5, 1); (8, 4); (14, 5)]%Z /\
  ~ positions_of 1 republican_priorities
      (Sql.rows (issues (seed_issues empty_database)))
      (columns (candidate_issues
                  (assign_candidate_issues 1 "Democratic-Republican Party"
                     (seed_issues empty_database)))).
Proof.
  split; [vm_compute; reflexivity|].
  split; [vm_compute; reflexivity|].
  split; [vm_compute; reflexivity|].
  intro H. apply Forall2_length in H. vm_compute in H. discriminate H.
Qed.

(** C7, amended.  [assign_candidate_issues] changes the positions table
    only, by one [INSERT OR IGNORE] for each statement of a list [stmts]
    in catalog order.  For a label that contains "DEMOCRATIC" after
    uppercasing, [stmts] are exactly the catalog issues whose names are
    in the Democratic list, each with "Support", "Strong" and the 1-based
    rank of the issue in that list; for a label that contains
    "REPUBLICAN" and not "DEMOCRATIC", the same with the Republican list;
    for any other label there is no statement.  When the issue ids of the
    catalog are distinct and the candidate has no stored position, every
    statement inserts its row. *)
Theorem C7_party_issues (candidate_id : Z) (party : string) (db : database) :
  let db' := assign_candidate_issues candidate_id party db in
  let catalog := Sql.rows (issues db) in
  exists stmts : list CandidateIssues.row,
    candidate_issues db' = insert_all_or_ignore stmts (candidate_issues db) /\
    (candidates db' = candidates db /\ races db' = races db /\
     race_candidates db' = race_candidates db /\ issues db' = issues db /\
     campaign_finance db' = campaign_finance db /\
     impact_scores db' = impact_scores db) /\
    (PyStr.contains "DEMOCRATIC" (PyStr.upper party) = true ->
     positions_of candidate_id democratic_priorities catalog stmts) /\
    (PyStr.contains "DEMOCRATIC" (PyStr.upper party) = false ->
     PyStr.contains "REPUBLICAN" (PyStr.upper party) = true ->
     positions_of candidate_id republican_priorities catalog stmts) /\
    (PyStr.contains "DEMOCRATIC" (PyStr.upper party) = false ->
     PyStr.contains "REPUBLICAN" (PyStr.upper party) = false ->
     stmts = [] /\ db' = db) /\
    (NoDup (map fst catalog) ->
     (forall r, In r (columns (candidate_issues db)) ->
                CandidateIssues.candidate_id r <> candidate_id) ->
     columns (candidate_issues db') =
     columns (candidate_issues db) ++ stmts).
Proof.
  intros db' catalog. subst db' catalog.
  exists (issue_statements candidate_id party (Sql.rows (issues db))).
  destruct (assign_candidate_issues_run candidate_id party db)
    as (H0&H1&H2&H3&H4&H5&H6).
  split; [exact H0|]. split; [auto 10|]. split; [|split; [|split]].
  - intro Hd. apply issue_statements_positions.
    intro n. rewrite Hd. reflexivity.
  - intros Hd Hr. apply issue_statements_positions.
    intro n. rewrite Hd, Hr. reflexivity.
  - intros Hd Hr.
    assert (E : issue_statements candidate_id party (Sql.rows (issues db)) = [])
      by (apply issue_statements_none; assumption).
    split; [exact E|].
    rewrite E in H0. simpl in H0.
    apply database_ext; assumption.
  - intros Hnd Hnone. rewrite H0.
    apply insert_all_or_ignore_fresh.
    + intros x r Hx Hr. apply issue_statements_In in Hr.
      destruct Hr as [Hc _]. unfold CandidateIssues.conflict.
      apply andb_false_iff. left. apply Z.eqb_neq. rewrite Hc.
      apply Hnone. exact Hx.
    + apply issue_statements_conflict_free. exact Hnd.
Qed.

(** C7 amended, for the label "Democratic Party" on the seeded catalog:
    the six Democratic priorities, each with its rank. *)
Lemma C7_party_issues_witness :
  exists stmts : list CandidateIssues.row,
    positions_of 1 democratic_priorities
      (Sql.rows (issues (seed_issues empty_database))) stmts /\
    columns (candidate_issues
               (assign_candidate_issues 1 "Democratic Party"
                  (seed_issues empty_database))) =
    columns (candidate_issues (seed_issues empty_database)) ++ stmts.
Proof.
  destruct (C7_party_issues 1 "Democratic Party" (seed_issues empty_database))
    as [stmts (_&_&Hd&_&_&Hall)].
  exists stmts. split.
  - apply Hd. vm_compute. reflexivity.
  - apply Hall.
    + vm_compute. repeat constructor; simpl; intuition discriminate.
    + vm_compute. intros r [].
Defined.

End IssueClaims.

(* ================================================================= *)
(** ** The full ingestion run *)

Section Pipeline.

Local Open Scope Q_scope.
Local Open Scope num_scope.
Local Open Scope list_scope.

Lemma finance_grows_same (db db' : database) :
  campaign_finance db' = campaign_finance db /\
  impact_scores db' = impact_scores db ->
  finance_grows db db'.
Proof.
  intros [H H']. split; [exact H'|].
  exists []. rewrite H, app_nil_r. split; [reflexivity | constructor].
Qed.

Lemma finance_grows_trans (db1 db2 db3 : database) :
  finance_grows db1 db2 -> finance_grows db2 db3 -> finance_grows db1 db3.
Proof.
  intros [I1 [a1 [E1 F1]]] [I2 [a2 [E2 F2]]].
  split; [congruence|]. exists (a1 ++ a2).
  rewrite E2, E1, app_assoc. split; [reflexivity|].
  apply Forall_app. split; assumption.
Qed.

Lemma insert_candidate_finance (candidate : Fec.candidate) (db : database) :
  campaign_finance (fst (insert_candidate candidate db)) = campaign_finance db /\
  impact_scores (fst (insert_candidate candidate db)) = impact_scores db.
Proof.
  unfold insert_candidate.
  destruct (Sql.fetchone _ (candidates db)); split; reflexivity.
Qed.

Lemma insert_race_finance (race_data : RaceData.dict) (election_id : option Z)
    (db : database) :
  campaign_finance (fst (insert_race race_data election_id db)) =
  campaign_finance db /\
  impact_scores (fst (insert_race race_data election_id db)) =
  impact_scores db.
Proof.
  unfold insert_race.
  destruct (Sql.fetchone _ (races db)); split; reflexivity.
Qed.

Lemma assign_candidate_issues_finance (candidate_id : Z) (party : string)
    (db : database) :
  campaign_finance (assign_candidate_issues candidate_id party db) =
  campaign_finance db /\
  impact_scores (assign_candidate_issues candidate_id party db) =
  impact_scores db.
Proof.
  split; apply (assign_candidate_issues_run candidate_id party db).
Qed.

Lemma update_ratings_finance (races_by_district : list (string * Z))
    (db : database) :
  campaign_finance (update_ratings races_by_district db) = campaign_finance db /\
  impact_scores (update_ratings races_by_district db) = impact_scores db.
Proof.
  unfold update_ratings. generalize competitive_races. intro l.
  revert db. induction l as [|[[[s d] r] c] l IH]; intro db;
    [split; reflexivity|].
  cbn [fold_left].
  match goal with
  | |- context [fold_left ?f l ?d0] => destruct (IH d0) as [H1 H2]
  end.
  split; [etransitivity; [exact H1|] | etransitivity; [exact H2|]];
    destruct (dict_get _ races_by_district); reflexivity.
Qed.

(** The row stored without an opponent figure has no opponent columns,
    and storing it calls nothing. *)
Lemma finance_row_no_opponent (candidate_id : Z) (financial_data : Fec.totals) :
  no_opponent_columns (finance_row candidate_id financial_data None).
Proof. repeat split. Qed.

Lemma finance_trace_no_opponent (financial_data : Fec.totals) :
  Py.calls (finance_trace financial_data None) = [].
Proof.
  unfold finance_trace.
  destruct ((receipts_of financial_data >? 0)
            && (individual_contribs_of financial_data >? 0)); reflexivity.
Qed.

Lemma for_each_quiet {A D : Type}
    (body : database * D -> A -> Py.logged (database * D)) (l : list A)
    (s : database * D) :
  quiet_step body ->
  Py.calls (fst (for_each body l s)) = [] /\
  finance_grows (fst s) (fst (snd (for_each body l s))).
Proof.
  intro Hq. revert s. induction l as [|x l IH]; intro s.
  - split; [reflexivity|]. apply finance_grows_same. split; reflexivity.
  - destruct (Hq s x) as [C1 G1].
    destruct (IH (snd (body s x))) as [C2 G2].
    cbn [for_each]. unfold Py.logged_bind. cbn [fst snd].
    split; [rewrite PyFacts.calls_app, C1, C2; reflexivity|].
    eapply finance_grows_trans; eassumption.
Qed.

(** The last action of both loop bodies: store the totals, if any. *)
Lemma store_financials_quiet {D : Type} (candidate_id : Z)
    (financials : option Fec.totals) (db0 db : database) (d : D) :
  finance_grows db0 db ->
  let m :=
    match financials with
    | Some financials =>
        Py.logged_bind
          (insert_campaign_finance candidate_id financials None db)
          (fun db => Py.logged_ret (db, d))
    | None => Py.logged_ret (db, d)
    end in
  Py.calls (fst m) = [] /\ finance_grows db0 (fst (snd m)) /\ snd (snd m) = d.
Proof.
  intros G m. subst m. destruct financials as [f|].
  - rewrite insert_campaign_finance_run. unfold Py.logged_bind. simpl.
    split; [rewrite app_nil_r; apply finance_trace_no_opponent|].
    split; [|reflexivity].
    eapply finance_grows_trans; [exact G|].
    split; [reflexivity|].
    exists [finance_row candidate_id f None]. simpl.
    split; [apply columns_insert|].
    constructor; [apply finance_row_no_opponent | constructor].
  - split; [reflexivity|]. split; [exact G | reflexivity].
Qed.

Lemma count_char_app (c : ascii) (a b : string) :
  PyStr.count_char c (a ++ b)%string =
  (PyStr.count_char c a + PyStr.count_char c b)%nat.
Proof.
  induction a as [|x a IH]; [reflexivity|].
  simpl. destruct (Ascii.eqb x c); rewrite IH; reflexivity.
Qed.

(** What one turn of the House loop does to the finance table, to the
    calls and to the keys of the dictionary. *)
Lemma house_step_run (election_id : Z) (db : database)
    (races_by_district : list (string * Z))
    (item : Fec.candidate * option Fec.totals) :
  let m := house_step election_id (db, races_by_district) item in
  Py.calls (fst m) = [] /\
  finance_grows db (fst (snd m)) /\
  (dashless item -> Forall splits_in_two races_by_district ->
   Forall splits_in_two (snd (snd m))).
Proof.
  destruct item as [candidate financials]. unfold house_step.
  pose proof (insert_candidate_finance candidate db) as Hc.
  destruct (insert_candidate candidate db) as [db1 candidate_id].
  simpl in Hc.
  destruct (PyStr.truthy (Fec.state candidate)
            && PyStr.truthy (Fec.district candidate)).
  - destruct (dict_get _ races_by_district) as [race_id|].
    + match goal with
      | |- context [match financials with _ => _ end] =>
          destruct (@store_financials_quiet _ candidate_id financials db
                      (assign_candidate_issues candidate_id
                         (Fec.get_str (Fec.party_full candidate))
                         (link_candidate_to_race candidate_id race_id db1))
                      races_by_district) as (C&G&E)
      end.
      { destruct (assign_candidate_issues_finance candidate_id
                    (Fec.get_str (Fec.party_full candidate))
                    (link_candidate_to_race candidate_id race_id db1))
          as [Ha Hi].
        apply finance_grows_same. rewrite Ha, Hi. simpl. exact Hc. }
      cbv zeta. split; [exact C|]. split; [exact G|].
      intros _ Hk. rewrite E. exact Hk.
    + match goal with
      | |- context [insert_race ?rd ?e db1] =>
          pose proof (insert_race_finance rd e db1) as Hr;
          destruct (insert_race rd e db1) as [db2 race_id]
      end.
      simpl in Hr.
      match goal with
      | |- context [Py.logged_ret (_, ?d)] =>
          destruct (@store_financials_quiet _ candidate_id financials db
                      (assign_candidate_issues candidate_id
                         (Fec.get_str (Fec.party_full candidate))
                         (link_candidate_to_race candidate_id race_id db2))
                      d) as (C&G&E)
      end.
      { destruct (assign_candidate_issues_finance candidate_id
                    (Fec.get_str (Fec.party_full candidate))
                    (link_candidate_to_race candidate_id race_id db2))
          as [Ha Hi].
        apply finance_grows_same. rewrite Ha, Hi. simpl.
        destruct Hc, Hr. split; congruence. }
      cbv zeta. split; [exact C|]. split; [exact G|].
      intros [Hs Hd] Hk. rewrite E. apply Forall_app. split; [exact Hk|].
      constructor; [|constructor]. unfold splits_in_two. cbn [fst].
      simpl in Hs, Hd. rewrite !count_char_app, Hs, Hd. reflexivity.
  - destruct (@store_financials_quiet _ candidate_id financials db db1
                races_by_district) as (C&G&E).
    { apply finance_grows_same. exact Hc. }
    cbv zeta. split; [exact C|]. split; [exact G|].
    intros _ Hk. rewrite E. exact Hk.
Qed.

Lemma house_step_quiet (election_id : Z) : quiet_step (house_step election_id).
Proof.
  intros [db races_by_district] item.
  destruct (house_step_run election_id db races_by_district item) as (C&G&_).
  split; assumption.
Qed.

Lemma house_loop_keys (election_id : Z)
    (l : list (Fec.candidate * option Fec.totals)) (db : database)
    (races_by_district : list (string * Z)) :
  Forall dashless l ->
  Forall splits_in_two races_by_district ->
  Forall splits_in_two
    (snd (snd (for_each (house_step election_id) l (db, races_by_district)))).
Proof.
  revert db races_by_district.
  induction l as [|x l IH]; intros db d Hl Hd; [exact Hd|].
  inversion Hl as [|y ys Hx Hl']. subst.
  cbn [for_each]. unfold Py.logged_bind. cbn [snd].
  destruct (house_step_run election_id db d x) as (_&_&Hk).
  destruct (snd (house_step election_id (db, d) x)) as [db1 d1] eqn:E.
  apply IH; [exact Hl'|]. apply (Hk Hx Hd).
Qed.

Lemma senate_step_quiet (election_id : Z) :
  quiet_step (senate_step election_id).
Proof.
  intros [db senate_races] [candidate financials].
  unfold senate_step.
  pose proof (insert_candidate_finance candidate db) as Hc.
  destruct (insert_candidate candidate db) as [db1 candidate_id].
  simpl in Hc. cbn [fst].
  destruct (PyStr.truthy (Fec.state candidate)).
  - destruct (dict_get _ senate_races) as [race_id|].
    + match goal with
      | |- context [match financials with _ => _ end] =>
          destruct (@store_financials_quiet _ candidate_id financials db
                      (assign_candidate_issues candidate_id
                         (Fec.get_str (Fec.party_full candidate))
                         (link_candidate_to_race candidate_id race_id db1))
                      senate_races) as (C&G&E)
      end.
      { destruct (assign_candidate_issues_finance candidate_id
                    (Fec.get_str (Fec.party_full candidate))
                    (link_candidate_to_race candidate_id race_id db1))
          as [Ha Hi].
        apply finance_grows_same. rewrite Ha, Hi. simpl. exact Hc. }
      split; [exact C | exact G].
    + match goal with
      | |- context [insert_race ?rd ?e db1] =>
          pose proof (insert_race_finance rd e db1) as Hr;
          destruct (insert_race rd e db1) as [db2 race_id]
      end.
      simpl in Hr.
      match goal with
      | |- context [Py.logged_ret (_, ?d)] =>
          destruct (@store_financials_quiet _ candidate_id financials db
                      (assign_candidate_issues candidate_id
                         (Fec.get_str (Fec.party_full candidate))
                         (link_candidate_to_race candidate_id race_id db2))
                      d) as (C&G&E)
      end.
      { destruct (assign_candidate_issues_finance candidate_id
                    (Fec.get_str (Fec.party_full candidate))
                    (link_candidate_to_race candidate_id race_id db2))
          as [Ha Hi].
        apply finance_grows_same. rewrite Ha, Hi. simpl.
        destruct Hc, Hr. split; congruence. }
      split; [exact C | exact G].
  - destruct (@store_financials_quiet _ candidate_id financials db db1
                senate_races) as (C&G&E).
    { apply finance_grows_same. exact Hc. }
    split; [exact C | exact G].
Qed.

(** The demographics loop records nothing; it raises [ValueError] or
    returns, and it returns when every key splits in two. *)
Lemma demographics_loop_run (items : list (string * Z)) :
  Py.trace (demographics_loop items) = [] /\
  (Py.result (demographics_loop items) = Py.Return tt \/
   Py.result (demographics_loop items) = Py.Raise Py.ValueError) /\
  (Forall splits_in_two items ->
   Py.result (demographics_loop items) = Py.Return tt).
Proof.
  induction items as [|[race_key race_id] items IH].
  - simpl. auto.
  - cbn [demographics_loop].
    destruct (PyStr.count_char "-" race_key =? 1)%nat eqn:E.
    + destruct IH as (T&R&W). split; [exact T|]. split; [exact R|].
      intro H. inversion H. auto.
    + simpl. split; [reflexivity|]. split; [right; reflexivity|].
      intro H. inversion H as [|x xs Hx _]. subst.
      unfold splits_in_two in Hx. simpl in Hx.
      apply Nat.eqb_neq in E. contradiction.
Qed.

Lemma Forall_firstn_keys (n : nat) (items : list (string * Z)) :
  Forall splits_in_two items -> Forall splits_in_two (firstn n items).
Proof.
  revert items. induction n as [|n IH]; intros items H; [constructor|].
  destruct items as [|x items]; [constructor|].
  inversion H. subst. simpl. constructor; auto.
Qed.

(** The run: it calls nothing; the finance table of the store that the
    impact-score pass reads has only grown by rows without opponent
    columns; the run ends after that pass, or before it with the
    [ValueError] of the demographics loop; and it ends after the pass
    when no state or district of a fetched House candidate has a '-'. *)
Lemma scrape_all_data_run (election_id : Z) (fetched : Fetched.data)
    (db : database) :
  let m := scrape_all_data election_id fetched db in
  Py.calls (fst m) = [] /\
  exists db_scored,
    finance_grows db db_scored /\
    ((raised (snd m) = None /\
      store (snd m) = calculate_impact_scores db_scored) \/
     (raised (snd m) = Some Py.ValueError /\ store (snd m) = db_scored)) /\
    (Forall dashless (Fetched.house_candidates fetched) ->
     raised (snd m) = None).
Proof.
  unfold scrape_all_data, Py.logged_bind.
  destruct (@for_each_quiet _ _ (house_step election_id)
              (Fetched.house_candidates fetched) (db, [])
              (house_step_quiet election_id)) as [C1 G1].
  pose proof (@house_loop_keys election_id (Fetched.house_candidates fetched)
                db []) as K1.
  destruct (for_each (house_step election_id)
              (Fetched.house_candidates fetched) (db, []))
    as [t1 [db1 races_by_district]].
  cbn [fst snd] in *.
  destruct (@for_each_quiet _ _ (senate_step election_id)
              (Fetched.senate_candidates fetched) (db1, [])
              (senate_step_quiet election_id)) as [C2 G2].
  destruct (for_each (senate_step election_id)
              (Fetched.senate_candidates fetched) (db1, []))
    as [t2 [db2 senate_races]].
  cbn [fst snd] in *.
  destruct (demographics_loop_run (firstn 20 races_by_district))
    as (T&R&W).
  assert (G : finance_grows db (update_ratings races_by_district db2)).
  { eapply finance_grows_trans; [exact G1|].
    eapply finance_grows_trans; [exact G2|].
    apply finance_grows_same. apply update_ratings_finance. }
  destruct (Py.result (demographics_loop (firstn 20 races_by_district)))
    as [[]|e] eqn:Er; cbn [fst snd store raised].
  - split; [rewrite !PyFacts.calls_app, C1, C2, T; reflexivity|].
    exists (update_ratings races_by_district db2).
    split; [exact G|]. split; [left; auto | reflexivity].
  - split; [rewrite !PyFacts.calls_app, C1, C2, T; reflexivity|].
    exists (update_ratings races_by_district db2).
    split; [exact G|]. split.
    + right. destruct R as [R|R]; [discriminate|].
      injection R as ->. auto.
    + intro Hd. exfalso.
      assert (Hw : Py.Raise e = Py.Return tt).
      { apply W. apply Forall_firstn_keys. apply K1; [exact Hd | constructor]. }
      discriminate.
Qed.

Lemma seed_issues_finance (db : database) :
  campaign_finance (seed_issues db) = campaign_finance db.
Proof.
  unfold seed_issues. generalize seed_issue_list. intro l.
  revert db. induction l as [|x l IH]; intro db; [reflexivity|].
  cbn [fold_left]. rewrite IH. reflexivity.
Qed.

(** No finance row of a store the code produces has opponent columns. *)
Lemma pipeline_store_no_opponent (db : database) :
  pipeline_store db ->
  Forall no_opponent_columns (columns (campaign_finance db)).
Proof.
  induction 1 as [|db _ IH|db election_id fetched _ IH].
  - constructor.
  - rewrite seed_issues_finance. exact IH.
  - destruct (scrape_all_data_run election_id fetched db)
      as [_ [db_scored ([_ [added [Hadd Hnull]]]&Hend&_)]].
    assert (E : columns (campaign_finance
                           (store (snd (scrape_all_data election_id fetched db))))
                = columns (campaign_finance db) ++ added).
    { destruct Hend as [[_ Hs]|[_ Hs]]; rewrite Hs; [|exact Hadd].
      rewrite calculate_impact_scores_unfold.
      destruct (write_impact_scores_frame (select_pairs db_scored) db_scored)
        as (_&_&_&_&_&H6).
      rewrite H6. exact Hadd. }
    rewrite E. apply Forall_app. split; assumption.
Qed.

End Pipeline.

Section PipelineClaims.

Local Open Scope Q_scope.
Local Open Scope list_scope.



End PipelineClaims.
